(** * SearchBar: a shallow embedding of [src/components/SearchBar.tsx]

    The component is a view layer over the headless search-state client.
    Its own logic is event wiring and conditional rendering, so the
    embedding has three layers:

    - [Js]: the few JavaScript idioms the component relies on
      (truthiness, [||], default parameters, template literals, [trim]);
    - the collaborators the component imports from this repository
      ([useSynchronizedRequest], [useRecentSearches],
      [useSearchWithNearMeHandling], [processTranslation]);
    - [SearchBar]: the render functions as functions to an element tree,
      and the event handlers as programs in a small state monad over the
      mutable world they touch, every call to a collaborator being
      appended to a log in program order. *)

From Stdlib Require Import String Ascii List Arith Lia Bool DecimalString Permutation.
Import ListNotations.
Local Open Scope string_scope.
Local Open Scope list_scope.
Local Open Scope nat_scope.

(* ===================================================================== *)
(** * JavaScript idioms *)
(* ===================================================================== *)

Module Js.

(** A value of unknown type, as far as [typeof] and truthiness see it. *)
Inductive Value :=
| Undefined
| Null
| Bool (b : bool)
| Number (n : nat)
| Str (s : string).

(** [typeof v === 'string'] *)
Definition typeofIsString (v : Value) : bool :=
  match v with Str _ => true | _ => false end.

(** Truthiness of an optional boolean prop ([boolean | undefined]). *)
Definition truthyFlag (b : option bool) : bool :=
  match b with Some true => true | _ => false end.

(** Truthiness of [xs?.length] ([number | undefined]). *)
Definition truthyNumber (n : option nat) : bool :=
  match n with Some (S _) => true | _ => false end.

(** Truthiness of a [string | undefined]. *)
Definition truthyString (s : option string) : bool :=
  match s with Some (String _ _) => true | _ => false end.

(** [value || ''] on a [string | undefined]. *)
Definition orEmpty (s : option string) : string :=
  if truthyString s then match s with Some v => v | None => "" end else "".

(** A default parameter [(value = '') => ...]: only [undefined] is replaced. *)
Definition defaultEmpty (s : option string) : string :=
  match s with Some v => v | None => "" end.

(** A default parameter [(n = 0)]. *)
Definition defaultZero (n : option nat) : nat :=
  match n with Some v => v | None => 0 end.

(** [xs?.length] *)
Definition optLength {A} (xs : option (list A)) : option nat :=
  option_map (@length A) xs.

(** [`${n}`] for a non-negative integer. *)
Definition ofNat (n : nat) : string :=
  NilZero.string_of_uint (Nat.to_uint n).

(** White space as [String.prototype.trim] sees it, on one-byte characters:
    TAB, LF, VT, FF, CR and SPACE. *)
Definition isWhiteSpace (c : ascii) : bool :=
  let n := nat_of_ascii c in
  ((9 <=? n) && (n <=? 13)) || (n =? 32).

Fixpoint trimStart (s : string) : string :=
  match s with
  | EmptyString => EmptyString
  | String c s' => if isWhiteSpace c then trimStart s' else s
  end.

Fixpoint trimEnd (s : string) : string :=
  match s with
  | EmptyString => EmptyString
  | String c s' =>
      match trimEnd s' with
      | EmptyString => if isWhiteSpace c then EmptyString else String c EmptyString
      | t => String c t
      end
  end.

Definition trim (s : string) : string := trimEnd (trimStart s).

End Js.

(* ===================================================================== *)
(** * The autocomplete response, as the component reads it *)
(* ===================================================================== *)

(** One entry of [autocompleteResponse.results]; [verticalKeys] is optional. *)
Record AutocompleteResult := {
  value : string;
  verticalKeys : option (list string)
}.

Record AutocompleteResponse := {
  results : list AutocompleteResult
}.

(* ===================================================================== *)
(** * useSynchronizedRequest *)
(* ===================================================================== *)

Module SynchronizedRequest.

Section Synchronizer.
Variable R : Type.

(** Modelled from the spec: [hooks/useSynchronizedRequest] is imported by
    the component but its body is not part of the sources. The
    synchronizer owns a private counter, the sequence number of the
    latest issued request, and the published response. *)
Record t := {
  counter : nat;
  latestIssued : nat;
  published : option R
}.

Definition init : t :=
  {| counter := 0; latestIssued := 0; published := None |}.

(** Modelled from the spec: the absent [executeSynchronizedRequest], up to
    the call of the fetch function. Issuing increments the counter to
    obtain [seq] and stores it as [latestIssued]. *)
Definition issue (s : t) : nat * t :=
  let seq := S (counter s) in
  (seq, {| counter := seq; latestIssued := seq; published := published s |}).

(** Modelled from the spec: the absent continuation of
    [executeSynchronizedRequest] after the fetch resolves. The result
    is published only if [seq === latestIssued] at resolution time,
    and silently discarded otherwise. *)
Definition resolve (seq : nat) (r : R) (s : t) : t :=
  if seq =? latestIssued s
  then {| counter := counter s; latestIssued := latestIssued s; published := Some r |}
  else s.

(** A schedule of the event loop: requests are issued and their
    promises resolve, one handler at a time. *)
Inductive Event :=
| Issue
| Resolve (seq : nat).

Definition step (resp : nat -> R) (s : t) (e : Event) : t :=
  match e with
  | Issue => snd (issue s)
  | Resolve seq => resolve seq (resp seq) s
  end.

Definition run (resp : nat -> R) (es : list Event) (s : t) : t :=
  fold_left (step resp) es s.

Definition issues (es : list Event) : nat :=
  length (filter (fun e => match e with Issue => true | _ => false end) es).

(** A schedule is well formed when a promise resolves only after its
    request was issued, and at most once. *)
Fixpoint wellFormed (issued : nat) (resolved : list nat) (es : list Event) : Prop :=
  match es with
  | [] => True
  | Issue :: es' => wellFormed (S issued) resolved es'
  | Resolve seq :: es' =>
      1 <= seq /\ seq <= issued /\ ~ In seq resolved /\
      wellFormed issued (seq :: resolved) es'
  end.

(** [resp seq] is the response the backend gives to request [seq]. *)
Variable resp : nat -> R.

(** The sequence numbers a schedule resolves. *)
Definition resolvedIn (es : list Event) : list nat :=
  flat_map (fun e => match e with Resolve seq => [seq] | Issue => [] end) es.

(** What a well-formed schedule preserves: the counter and the latest
    issued number agree with the number of issues so far, nothing
    beyond it has resolved, and once the latest request has resolved
    its response is the published one. *)
Definition inv (issued : nat) (resolved : list nat) (s : t) : Prop :=
  counter s = issued /\
  latestIssued s = issued /\
  (forall k, In k resolved -> k <= issued) /\
  (In issued resolved -> published s = Some (resp issued)).

End Synchronizer.

Arguments counter {R}.
Arguments latestIssued {R}.
Arguments published {R}.
Arguments init {R}.
Arguments issue {R}.
Arguments resolve {R}.
Arguments step {R}.
Arguments run {R}.
Arguments inv {R}.

End SynchronizedRequest.

(* ===================================================================== *)
(** * useRecentSearches *)
(* ===================================================================== *)

Module RecentSearches.

(** A stored search; the component reads nothing but [query]. *)
Record RecentSearch := {
  query : string
}.

Definition Store := list RecentSearch.

Definition headIs (q : string) (store : Store) : bool :=
  match store with
  | e :: _ => String.eqb (query e) q
  | [] => false
  end.

(** Modelled from the spec: [hooks/useRecentSearches] is imported by the
    component but its body is not part of the sources. [record(query)]
    trims the query; if it is non-empty and distinct from the
    immediately preceding stored entry it is prepended; the list is
    truncated to the capacity. *)
Definition setRecentSearch (limit : nat) (q : string) (store : Store) : Store :=
  let q' := Js.trim q in
  match q' with
  | EmptyString => firstn limit store
  | _ => if headIs q' store then firstn limit store
         else firstn limit ({| query := q' |} :: store)
  end.

(** Modelled from the spec: the absent [clearRecentSearches] of
    [hooks/useRecentSearches]; [clear()] empties the list. *)
Definition clearRecentSearches (store : Store) : Store := [].

End RecentSearches.

(* ===================================================================== *)
(** * processTranslation *)
(* ===================================================================== *)

Module Translation.

(** Modelled from the spec: [utils/processTranslation] is imported by the
    component but its body is not part of the sources. It is the
    pluralized-phrase formatter [format(singular, plural, count)]: the
    singular phrase for a count of one, the plural form otherwise. *)
Definition processTranslation (phrase pluralForm : string) (count : nat) : string :=
  if count =? 1 then phrase else pluralForm.

End Translation.

(* ===================================================================== *)
(** * useSearchWithNearMeHandling *)
(* ===================================================================== *)

Module NearMe.

Record Coordinates := {
  latitude : nat;
  longitude : nat
}.

(** What the platform's geolocation provider answers. *)
Inductive GeoReply :=
| Located (c : Coordinates)
| PermissionDenied
| PositionUnavailable.

(** The provider answers after some delay, or never. *)
Definition GeoAnswer := option (nat * GeoReply).

Inductive RaceOutcome :=
| Settled (r : GeoReply)
| TimedOut.

(** Modelled from the spec: the geolocation request is raced against a
    fixed timeout. An answer that arrives before the timeout elapses
    wins the race; otherwise the timeout does. *)
Definition race (timeout : nat) (answer : GeoAnswer) : RaceOutcome :=
  match answer with
  | Some (delay, r) => if delay <? timeout then Settled r else TimedOut
  | None => TimedOut
  end.

(** The query handed to the underlying search-execution call. *)
Record Dispatched := {
  text : string;
  coordinates : option Coordinates
}.

Inductive Effect :=
| RequestGeolocation
| Warn
| ExecuteSearch (q : Dispatched).

Section Dispatch.
(** The "near me" intent pattern is an external predicate. *)
Variable isNearMe : string -> bool.
Variable timeout : nat.

Definition needsGeolocation (sessionLocation : option Coordinates) (queryText : string) : bool :=
  isNearMe queryText &&
  match sessionLocation with None => true | Some _ => false end.

(** Modelled from the spec: [hooks/useSearchWithNearMeHandling] is imported
    by the component but its body is not part of the sources.
    [dispatch(queryText)]: if the text matches the near-me pattern and
    no location has been resolved this session, geolocation is
    requested and raced against the timeout; on success the dispatched
    query includes the resolved coordinates; on timeout or denial the
    original query is dispatched unmodified and a non-fatal warning is
    surfaced. The result is the location known afterwards and the
    effects in order. *)
Definition dispatch (sessionLocation : option Coordinates) (answer : GeoAnswer)
    (queryText : string) : option Coordinates * list Effect :=
  if needsGeolocation sessionLocation queryText then
    match race timeout answer with
    | Settled (Located c) =>
        (Some c,
         [RequestGeolocation;
          ExecuteSearch {| text := queryText; coordinates := Some c |}])
    | Settled PermissionDenied | Settled PositionUnavailable | TimedOut =>
        (sessionLocation,
         [RequestGeolocation; Warn;
          ExecuteSearch {| text := queryText; coordinates := None |}])
    end
  else
    (sessionLocation,
     [ExecuteSearch {| text := queryText; coordinates := None |}]).

Definition executed (es : list Effect) : list Dispatched :=
  flat_map (fun e => match e with ExecuteSearch q => [q] | _ => [] end) es.

Definition warned (es : list Effect) : bool :=
  existsb (fun e => match e with Warn => true | _ => false end) es.

End Dispatch.

End NearMe.

(* ===================================================================== *)
(** * The SearchBar component *)
(* ===================================================================== *)

Module SearchBar.

(** ** Elements *)

Inductive Icon :=
| RecentSearchIcon
| MagnifyingGlassIcon.

(** The [metadata] prop of a [DropdownItem]: the component writes and
    reads its [verticalLink] field only. *)
Record Metadata := {
  verticalLink : Js.Value
}.

(** A [DropdownItem] with its [renderAutocompleteResult] child: the value
    selected with the row, its metadata, and the text, icon and aria label
    shown. CSS class names are not modelled. *)
Record DropdownItem := {
  itemValue : string;
  itemMetadata : option Metadata;
  shown : string;
  icon : option Icon;
  ariaLabel : option string
}.

(** What a render function returns: nothing ([null], [undefined],
    [false]), one item, or a sequence of children (an array or a
    [Fragment]). *)
#[warnings="-register-all"]
Inductive Element :=
| Nothing
| Item (i : DropdownItem)
| Children (cs : list Element).

(** The items of an element, in document order. *)
Fixpoint items (e : Element) : list DropdownItem :=
  match e with
  | Nothing => []
  | Item i => [i]
  | Children cs =>
      (fix go (l : list Element) : list DropdownItem :=
         match l with
         | [] => []
         | c :: l' => items c ++ go l'
         end) cs
  end.

(** ** Calls to collaborators, logged in program order *)

Inductive Call :=
| SetQuery (v : string)
| ExecuteEntityPreviewsQuery (q : string)
| ExecuteVerticalAutocomplete (seq : nat)
| ExecuteUniversalAutocomplete (seq : nat)
| SetRecentSearch (input : string)
| ClearRecentSearches
| ExecuteQueryWithNearMeHandling
| HistoryPush (path : string).

(** ** The mutable world of one mounted component *)

Record World := {
  queryInput : option string;          (* answersActions.state.query.input *)
  recentSearchStore : RecentSearches.Store; (* behind useRecentSearches *)
  synchronizer : SynchronizedRequest.t AutocompleteResponse;
  autocompletePromiseRef : option nat; (* .current, by sequence number *)
  effectDeps : option (nat * option bool); (* deps of the last run of the effect *)
  calls : list Call
}.

Definition initialWorld : World :=
  {| queryInput := None;
     recentSearchStore := [];
     synchronizer := SynchronizedRequest.init;
     autocompletePromiseRef := None;
     effectDeps := None;
     calls := [] |}.

Definition M (A : Type) : Type := World -> A * World.

Definition ret {A} (a : A) : M A := fun w => (a, w).

Definition bind {A B} (c : M A) (k : A -> M B) : M B :=
  fun w => let (a, w') := c w in k a w'.

Definition exec {A} (c : M A) (w : World) : World := snd (c w).

Declare Scope action_scope.
Delimit Scope action_scope with action.
Notation "x <- c ;; k" := (bind c (fun x => k))
  (at level 61, c at next level, right associativity) : action_scope.
Notation "c ;; k" := (bind c (fun _ => k))
  (at level 61, right associativity) : action_scope.
Local Open Scope action_scope.

Definition call (c : Call) : M unit :=
  fun w =>
    (tt, {| queryInput := queryInput w;
            recentSearchStore := recentSearchStore w;
            synchronizer := synchronizer w;
            autocompletePromiseRef := autocompletePromiseRef w;
            effectDeps := effectDeps w;
            calls := calls w ++ [c] |}).

Definition getQueryInput : M (option string) :=
  fun w => (queryInput w, w).

Definition putQueryInput (q : option string) : M unit :=
  fun w =>
    (tt, {| queryInput := q;
            recentSearchStore := recentSearchStore w;
            synchronizer := synchronizer w;
            autocompletePromiseRef := autocompletePromiseRef w;
            effectDeps := effectDeps w;
            calls := calls w |}).

Definition modifyStore (f : RecentSearches.Store -> RecentSearches.Store) : M unit :=
  fun w =>
    (tt, {| queryInput := queryInput w;
            recentSearchStore := f (recentSearchStore w);
            synchronizer := synchronizer w;
            autocompletePromiseRef := autocompletePromiseRef w;
            effectDeps := effectDeps w;
            calls := calls w |}).

Definition putSynchronizer (s : SynchronizedRequest.t AutocompleteResponse) : M unit :=
  fun w =>
    (tt, {| queryInput := queryInput w;
            recentSearchStore := recentSearchStore w;
            synchronizer := s;
            autocompletePromiseRef := autocompletePromiseRef w;
            effectDeps := effectDeps w;
            calls := calls w |}).

Definition putPromiseRef (p : option nat) : M unit :=
  fun w =>
    (tt, {| queryInput := queryInput w;
            recentSearchStore := recentSearchStore w;
            synchronizer := synchronizer w;
            autocompletePromiseRef := p;
            effectDeps := effectDeps w;
            calls := calls w |}).

Definition putEffectDeps (d : option (nat * option bool)) : M unit :=
  fun w =>
    (tt, {| queryInput := queryInput w;
            recentSearchStore := recentSearchStore w;
            synchronizer := synchronizer w;
            autocompletePromiseRef := autocompletePromiseRef w;
            effectDeps := d;
            calls := calls w |}).

Section Component.

(** External collaborators. *)
Variable isCloseMatch : string -> string -> bool.          (* answersUtilities *)
Variable processTranslation : string -> string -> nat -> string.
Variable EntityPreviews : Type.                            (* the JSX of renderEntityPreviews *)
Variable VerticalResults : Type.
Variable transformEntityPreviews : EntityPreviews -> list VerticalResults -> Element.

(** The props the logic reads. [placeholder], [geolocationOptions], the
    CSS props and [entityPreviewsDebouncingTime] are only handed on. *)
Record Props := {
  hideRecentSearches : option bool;
  renderEntityPreviews : option (bool -> list VerticalResults -> EntityPreviews);
  hideVerticalLinks : option bool;
  verticalKeyToLabel : option (string -> string);
  recentSearchesLimit : option nat
}.

(** [recentSearchesLimit = 5] *)
Definition limitOf (p : Props) : nat :=
  match recentSearchesLimit p with Some n => n | None => 5 end.

(** What the hooks return at one render, beside the world. *)
Record Env := {
  isVertical : bool;                 (* meta.searchType === Vertical *)
  isLoadingState : option bool;      (* searchStatus.isLoading *)
  verticalResultsArray : list VerticalResults;
  entityPreviewsLoading : bool;
  clearRecentSearchesId : nat        (* identity of the clearRecentSearches callback *)
}.

(** *** Collaborator calls *)

(** [answersActions.setQuery] updates the search state at once, so that
    [answersActions.state.query.input] read afterwards is the new value. *)
Definition setQuery (v : string) : M unit :=
  call (SetQuery v) ;; putQueryInput (Some v).

Definition setRecentSearch (p : Props) (input : string) : M unit :=
  call (SetRecentSearch input) ;;
  modifyStore (RecentSearches.setRecentSearch (limitOf p) input).

Definition clearRecentSearches : M unit :=
  call ClearRecentSearches ;;
  modifyStore RecentSearches.clearRecentSearches.

Definition executeQueryWithNearMeHandling : M unit :=
  call ExecuteQueryWithNearMeHandling.

Definition historyPush (path : string) : M unit :=
  call (HistoryPush path).

(** The call [executeAutocomplete] makes for request [seq]:
    [isVertical ? executeVerticalAutocomplete() : executeUniversalAutocomplete()]. *)
Definition autocompleteCall (e : Env) (seq : nat) : Call :=
  if isVertical e then ExecuteVerticalAutocomplete seq
  else ExecuteUniversalAutocomplete seq.

(** [executeAutocomplete]: the synchronized request around the fetch.
    It returns the promise, named by its sequence number. *)
Definition executeAutocomplete (e : Env) : M nat :=
  fun w =>
    let (seq, s) := SynchronizedRequest.issue (synchronizer w) in
    ((call (autocompleteCall e seq) ;;
      putSynchronizer s ;;
      ret seq) w).

(** The promise of request [seq] resolves with [r]. *)
Definition autocompleteResolved (seq : nat) (r : AutocompleteResponse) : M unit :=
  fun w => putSynchronizer (SynchronizedRequest.resolve seq r (synchronizer w)) w.

(** *** Functions of the component *)

Definition executeQuery (p : Props) : M unit :=
  (if negb (Js.truthyFlag (hideRecentSearches p)) then
     input <- getQueryInput ;;
     if Js.truthyString input
     then setRecentSearch p (Js.defaultEmpty input)
     else ret tt
   else ret tt) ;;
  executeQueryWithNearMeHandling.

Definition updateEntityPreviews (p : Props) (q : string) : M unit :=
  match renderEntityPreviews p with
  | None => ret tt
  | Some _ => call (ExecuteEntityPreviewsQuery q)
  end.

Definition onSubmit (p : Props) : M unit := executeQuery p.

(** [handleClick] of the search button. *)
Definition handleClick (p : Props) : M unit := executeQuery p.

Definition onFocus (p : Props) (e : Env) (v : option string) : M unit :=
  let value := Js.defaultEmpty v in
  setQuery value ;;
  updateEntityPreviews p value ;;
  promise <- executeAutocomplete e ;;
  putPromiseRef (Some promise).

Definition onChange (p : Props) (e : Env) (v : option string) : M unit :=
  let value := Js.defaultEmpty v in
  setQuery value ;;
  updateEntityPreviews p value ;;
  promise <- executeAutocomplete e ;;
  putPromiseRef (Some promise).

(** [metadata && typeof metadata.verticalLink === 'string'] *)
Definition linkOf (metadata : option Metadata) : option string :=
  match metadata with
  | Some m => match verticalLink m with
              | Js.Str path => Some path
              | _ => None
              end
  | None => None
  end.

Definition onSelect (p : Props) (e : Env)
    (v : option string) (index : nat) (metadata : option Metadata) : M unit :=
  setQuery (Js.orEmpty v) ;;
  match linkOf metadata with
  | Some path => historyPush path
  | None =>
      promise <- executeAutocomplete e ;;
      putPromiseRef (Some promise) ;;
      executeQuery p
  end.

Definition onToggle (p : Props) (e : Env) (isActive : bool) (v : option string) : M unit :=
  let value := Js.defaultEmpty v in
  if negb isActive then
    updateEntityPreviews p value ;;
    setQuery value ;;
    promise <- executeAutocomplete e ;;
    putPromiseRef (Some promise)
  else ret tt.

(** The effect [useEffect(() => { if (hideRecentSearches) clearRecentSearches() },
    [clearRecentSearches, hideRecentSearches])], run when a render is
    committed: on mount, and whenever a dependency differs from the
    last run. *)
Definition depsChanged (old : option (nat * option bool)) (new : nat * option bool) : bool :=
  match old with
  | None => true
  | Some (id, h) =>
      negb ((id =? fst new) &&
            match h, snd new with
            | None, None => true
            | Some a, Some b => Bool.eqb a b
            | _, _ => false
            end)
  end.

Definition commit (p : Props) (e : Env) : M unit :=
  fun w =>
    let deps := (clearRecentSearchesId e, hideRecentSearches p) in
    if depsChanged (effectDeps w) deps then
      ((if Js.truthyFlag (hideRecentSearches p) then clearRecentSearches else ret tt) ;;
       putEffectDeps (Some deps)) w
    else (tt, w).

(** *** Rendering *)

(** [recentSearches?.filter(search => isCloseMatch(search.query, query))] *)
Definition filteredRecentSearches
    (recentSearches : option (list RecentSearches.RecentSearch)) (query : string)
    : option (list RecentSearches.RecentSearch) :=
  option_map
    (filter (fun search => isCloseMatch (RecentSearches.query search) query))
    recentSearches.

Definition recentSearchItem (result : RecentSearches.RecentSearch) : DropdownItem :=
  {| itemValue := RecentSearches.query result;
     itemMetadata := None;
     shown := RecentSearches.query result;
     icon := Some RecentSearchIcon;
     ariaLabel := Some ("recent search: " ++ RecentSearches.query result)%string |}.

Definition renderRecentSearches (e : Env)
    (filtered : option (list RecentSearches.RecentSearch)) : Element :=
  if isVertical e then Nothing
  else match filtered with
       | None => Nothing
       | Some rs => Children (map (fun result => Item (recentSearchItem result)) rs)
       end.

Definition suggestionItem (result : AutocompleteResult) : DropdownItem :=
  {| itemValue := value result;
     itemMetadata := None;
     shown := value result;
     icon := Some MagnifyingGlassIcon;
     ariaLabel := Some ("autocomplete option: " ++ value result)%string |}.

Definition verticalLinkItem (p : Props) (result : AutocompleteResult)
    (verticalKey : string) : DropdownItem :=
  {| itemValue := value result;
     itemMetadata :=
       Some {| verticalLink :=
                 Js.Str ("/" ++ verticalKey ++ "?query=" ++ value result)%string |};
     shown := ("in " ++ match verticalKeyToLabel p with
                        | Some label => label verticalKey
                        | None => verticalKey
                        end)%string;
     icon := None;
     ariaLabel := None |}.

(** [!hideVerticalLinks && !isVertical && result.verticalKeys?.map(...)] *)
Definition renderVerticalLinks (p : Props) (e : Env) (result : AutocompleteResult) : Element :=
  if negb (Js.truthyFlag (hideVerticalLinks p)) then
    if negb (isVertical e) then
      match verticalKeys result with
      | None => Nothing
      | Some keys =>
          Children (map (fun verticalKey => Item (verticalLinkItem p result verticalKey)) keys)
      end
    else Nothing
  else Nothing.

Definition renderQuerySuggestions (p : Props) (e : Env)
    (autocompleteResponse : option AutocompleteResponse) : Element :=
  match autocompleteResponse with
  | None => Nothing
  | Some r =>
      Children
        (map (fun result =>
                Children [Item (suggestionItem result); renderVerticalLinks p e result])
             (results r))
  end.

(** [renderEntityPreviews && renderEntityPreviews(entityPreviewsLoading, verticalResultsArray)] *)
Definition entityPreviews (p : Props) (e : Env) : option EntityPreviews :=
  option_map (fun render => render (entityPreviewsLoading e) (verticalResultsArray e))
             (renderEntityPreviews p).

(** [entityPreviews && transformEntityPreviews(entityPreviews, verticalResultsArray)] *)
Definition renderEntityPreviewRows (p : Props) (e : Env) : Element :=
  match entityPreviews p e with
  | None => Nothing
  | Some previews => transformEntityPreviews previews (verticalResultsArray e)
  end.

(** [!!(autocompleteResponse?.results.length ||
        (!isVertical && filteredRecentSearches?.length))] *)
Definition hasItems (e : Env)
    (autocompleteResponse : option AutocompleteResponse)
    (filtered : option (list RecentSearches.RecentSearch)) : bool :=
  Js.truthyNumber (option_map (fun r => length (results r)) autocompleteResponse)
  || (negb (isVertical e) && Js.truthyNumber (Js.optLength filtered)).

Definition getScreenReaderText (autocompleteOptions recentSearchesOptions : option nat)
    : string :=
  let autocompleteOptions := Js.defaultZero autocompleteOptions in
  let recentSearchesOptions := Js.defaultZero recentSearchesOptions in
  let recentSearchesText :=
    if 0 <? recentSearchesOptions
    then processTranslation
           (Js.ofNat recentSearchesOptions ++ " recent search found.")%string
           (Js.ofNat recentSearchesOptions ++ " recent searches found.")%string
           recentSearchesOptions
    else ""%string in
  let autocompleteText :=
    processTranslation
      (Js.ofNat autocompleteOptions ++ " autocomplete suggestion found.")%string
      (Js.ofNat autocompleteOptions ++ " autocomplete suggestions found.")%string
      autocompleteOptions in
  Js.trim (recentSearchesText ++ " " ++ autocompleteText)%string.

(** [getScreenReaderText(autocompleteResponse?.results.length,
                         filteredRecentSearches?.length)] *)
Definition screenReaderText
    (autocompleteResponse : option AutocompleteResponse)
    (filtered : option (list RecentSearches.RecentSearch)) : string :=
  getScreenReaderText
    (option_map (fun r => length (results r)) autocompleteResponse)
    (Js.optLength filtered).

(** The children of [StyledDropdownMenu]. *)
Definition menuChildren (p : Props) (e : Env)
    (autocompleteResponse : option AutocompleteResponse)
    (filtered : option (list RecentSearches.RecentSearch)) : Element :=
  Children [renderRecentSearches e filtered;
            renderQuerySuggestions p e autocompleteResponse;
            renderEntityPreviewRows p e].

(** [hasItems && <StyledDropdownMenu>...</StyledDropdownMenu>] *)
Definition dropdownMenu (p : Props) (e : Env)
    (autocompleteResponse : option AutocompleteResponse)
    (filtered : option (list RecentSearches.RecentSearch)) : Element :=
  if hasItems e autocompleteResponse filtered
  then menuChildren p e autocompleteResponse filtered
  else Nothing.

(** What one render hands to [Dropdown]. *)
Record View := {
  viewHasItems : bool;            (* decides activeClassName *)
  viewScreenReaderText : string;
  viewInitialValue : string;
  viewIsLoading : bool;
  viewMenu : Element
}.

(** One render of the component on the current world. *)
Definition render (p : Props) (e : Env) (w : World) : View :=
  let query := Js.defaultEmpty (queryInput w) in
  let autocompleteResponse := SynchronizedRequest.published (synchronizer w) in
  let filtered := filteredRecentSearches (Some (recentSearchStore w)) query in
  {| viewHasItems := hasItems e autocompleteResponse filtered;
     viewScreenReaderText := screenReaderText autocompleteResponse filtered;
     viewInitialValue := query;
     viewIsLoading := match isLoadingState e with Some b => b | None => false end;
     viewMenu := dropdownMenu p e autocompleteResponse filtered |}.

(** *** Events *)

(** What can happen to a mounted component between two renders. *)
Inductive Event :=
| Submit
| Click
| Focus (v : option string)
| Change (v : option string)
| Select (v : option string) (index : nat) (metadata : option Metadata)
| Toggle (isActive : bool) (v : option string)
| Resolved (seq : nat) (r : AutocompleteResponse).

Definition handle (p : Props) (e : Env) (ev : Event) : M unit :=
  match ev with
  | Submit => onSubmit p
  | Click => handleClick p
  | Focus v => onFocus p e v
  | Change v => onChange p e v
  | Select v index metadata => onSelect p e v index metadata
  | Toggle isActive v => onToggle p e isActive v
  | Resolved seq r => autocompleteResolved seq r
  end.

(** A session: every event is handled under the props and hook values
    of the render it arrives in, after that render's effect has run. *)
Fixpoint session (evs : list (Props * Env * Event)) (w : World) : World :=
  match evs with
  | [] => w
  | (p, e, ev) :: evs' => session evs' (exec (commit p e ;; handle p e ev) w)
  end.

(** *** The session as the synchronizer sees it *)

(** The requests an event issues and the promises it resolves. *)
Definition scheduleOf (ev : Event) : list SynchronizedRequest.Event :=
  match ev with
  | Submit | Click => []
  | Focus _ | Change _ => [SynchronizedRequest.Issue]
  | Select _ _ metadata =>
      match linkOf metadata with
      | Some _ => []
      | None => [SynchronizedRequest.Issue]
      end
  | Toggle isActive _ => if negb isActive then [SynchronizedRequest.Issue] else []
  | Resolved seq _ => [SynchronizedRequest.Resolve seq]
  end.

Definition schedule (evs : list (Props * Env * Event)) : list SynchronizedRequest.Event :=
  flat_map (fun x => scheduleOf (snd x)) evs.

(** The backend answers request [seq] with [resp seq]. *)
Definition answeredBy (resp : nat -> AutocompleteResponse)
    (evs : list (Props * Env * Event)) : Prop :=
  Forall (fun x => match snd x with
                   | Resolved seq r => r = resp seq
                   | _ => True
                   end) evs.

(** *** Kinds of rows

    The three kinds of rows this file builds differ in what they show:
    a recent search has the history icon, a query suggestion the
    magnifying glass, a vertical link no icon but a link in its
    metadata. *)

Definition isRecentSearchRow (it : DropdownItem) : bool :=
  match icon it with Some RecentSearchIcon => true | _ => false end.

Definition isSuggestionRow (it : DropdownItem) : bool :=
  match icon it with Some MagnifyingGlassIcon => true | _ => false end.

Definition isVerticalLinkRow (it : DropdownItem) : bool :=
  match linkOf (itemMetadata it) with Some _ => true | None => false end.

Definition countRows (kind : DropdownItem -> bool) (rows : list DropdownItem) : nat :=
  length (filter kind rows).

(** The accessible-count summary as the specification words it: two
    pluralized phrases, always both, one for the recent-search rows and
    one for the autocomplete rows of the list. *)
Definition summaryAsSpecified (recentRows autocompleteRows : nat) : string :=
  (processTranslation
     (Js.ofNat recentRows ++ " recent search found.")
     (Js.ofNat recentRows ++ " recent searches found.")
     recentRows
   ++ " " ++
   processTranslation
     (Js.ofNat autocompleteRows ++ " autocomplete suggestion found.")
     (Js.ofNat autocompleteRows ++ " autocomplete suggestions found.")
     autocompleteRows)%string.

Definition isHistoryPush (c : Call) : bool :=
  match c with HistoryPush _ => true | _ => false end.

Definition isClear (c : Call) : bool :=
  match c with ClearRecentSearches => true | _ => false end.

End Component.

Arguments hideRecentSearches {EntityPreviews VerticalResults}.
Arguments renderEntityPreviews {EntityPreviews VerticalResults}.
Arguments hideVerticalLinks {EntityPreviews VerticalResults}.
Arguments verticalKeyToLabel {EntityPreviews VerticalResults}.
Arguments recentSearchesLimit {EntityPreviews VerticalResults}.
Arguments limitOf {EntityPreviews VerticalResults}.
Arguments isVertical {VerticalResults}.
Arguments isLoadingState {VerticalResults}.
Arguments verticalResultsArray {VerticalResults}.
Arguments entityPreviewsLoading {VerticalResults}.
Arguments clearRecentSearchesId {VerticalResults}.
Arguments setRecentSearch {EntityPreviews VerticalResults}.
Arguments autocompleteCall {VerticalResults}.
Arguments executeAutocomplete {VerticalResults}.
Arguments executeQuery {EntityPreviews VerticalResults}.
Arguments updateEntityPreviews {EntityPreviews VerticalResults}.
Arguments onSubmit {EntityPreviews VerticalResults}.
Arguments handleClick {EntityPreviews VerticalResults}.
Arguments onFocus {EntityPreviews VerticalResults}.
Arguments onChange {EntityPreviews VerticalResults}.
Arguments onSelect {EntityPreviews VerticalResults}.
Arguments onToggle {EntityPreviews VerticalResults}.
Arguments commit {EntityPreviews VerticalResults}.
Arguments renderRecentSearches {VerticalResults}.
Arguments verticalLinkItem {EntityPreviews VerticalResults}.
Arguments renderVerticalLinks {EntityPreviews VerticalResults}.
Arguments renderQuerySuggestions {EntityPreviews VerticalResults}.
Arguments entityPreviews {EntityPreviews VerticalResults}.
Arguments renderEntityPreviewRows {EntityPreviews VerticalResults}.
Arguments hasItems {VerticalResults}.
Arguments menuChildren {EntityPreviews VerticalResults}.
Arguments dropdownMenu {EntityPreviews VerticalResults}.
Arguments render isCloseMatch processTranslation {EntityPreviews VerticalResults}.
Arguments handle {EntityPreviews VerticalResults}.
Arguments session {EntityPreviews VerticalResults}.
Arguments schedule {EntityPreviews VerticalResults}.
Arguments answeredBy {EntityPreviews VerticalResults}.

End SearchBar.

(* ===================================================================== *)
(** * Concrete sessions *)
(* ===================================================================== *)

Module Examples.

Import SearchBar.

(** No entity previews are configured: their types are trivial. *)
Definition noPreviews (previews : unit) (verticalResults : list unit) : Element := Nothing.

(** A stored query equal to the live one is a close match. *)
Definition sameQuery (candidate liveQuery : string) : bool :=
  String.eqb candidate liveQuery.

(** The component mounted without any optional prop. *)
Definition defaultProps : Props unit unit :=
  {| hideRecentSearches := None;
     renderEntityPreviews := None;
     hideVerticalLinks := None;
     verticalKeyToLabel := None;
     recentSearchesLimit := None |}.

Definition hidingRecentSearches : Props unit unit :=
  {| hideRecentSearches := Some true;
     renderEntityPreviews := None;
     hideVerticalLinks := None;
     verticalKeyToLabel := None;
     recentSearchesLimit := None |}.

Definition universal : Env unit :=
  {| isVertical := false;
     isLoadingState := None;
     verticalResultsArray := [];
     entityPreviewsLoading := false;
     clearRecentSearchesId := 0 |}.

Definition vertical : Env unit :=
  {| isVertical := true;
     isLoadingState := None;
     verticalResultsArray := [];
     entityPreviewsLoading := false;
     clearRecentSearchesId := 0 |}.

(** The backend answers request [seq] with one suggestion naming it. *)
Definition numbered (seq : nat) : AutocompleteResponse :=
  {| results := [{| value := Js.ofNat seq; verticalKeys := None |}] |}.

(** Three keystrokes, answered out of order. *)
Definition typing : list (Props unit unit * Env unit * Event) :=
  [(defaultProps, universal, Focus None);
   (defaultProps, universal, Change (Some "p"%string));
   (defaultProps, universal, Change (Some "pi"%string));
   (defaultProps, universal, Resolved 2 (numbered 2));
   (defaultProps, universal, Resolved 3 (numbered 3));
   (defaultProps, universal, Resolved 1 (numbered 1))].

(** A vertical page on which "pizza" is typed and submitted. *)
Definition pizzaOnVertical : list (Props unit unit * Env unit * Event) :=
  [(defaultProps, vertical, Change (Some "pizza"%string));
   (defaultProps, vertical, Submit)].

(** A universal page on which "b" is typed and the backend suggests "b",
    found in the vertical "k1". *)
Definition suggestionWithLink : AutocompleteResponse :=
  {| results := [{| value := "b"; verticalKeys := Some ["k1"%string] |}] |}.

Definition bOnUniversal : list (Props unit unit * Env unit * Event) :=
  [(defaultProps, universal, Change (Some "b"%string));
   (defaultProps, universal, Resolved 1 suggestionWithLink)].

(** The row of the link of "b" into "k1". *)
Definition linkRow : DropdownItem :=
  verticalLinkItem defaultProps {| value := "b"; verticalKeys := Some ["k1"%string] |} "k1".

(** The world after "pizza" was typed and submitted on a vertical page. *)
Definition afterPizza : World := session pizzaOnVertical initialWorld.

(** What the component renders then, still on the vertical page. *)
Definition pizzaView : View :=
  render sameQuery Translation.processTranslation noPreviews defaultProps vertical afterPizza.

(** The same render had nothing been stored. *)
Definition pizzaViewEmptyStore : View :=
  render sameQuery Translation.processTranslation noPreviews defaultProps vertical
    (exec (modifyStore RecentSearches.clearRecentSearches) afterPizza).

(** What the component renders once "b" is suggested on a universal page. *)
Definition bView : View :=
  render sameQuery Translation.processTranslation noPreviews defaultProps universal
    (session bOnUniversal initialWorld).

(** A query with near-me intent, for the examples. *)
Definition nearMeQuery (queryText : string) : bool :=
  String.eqb queryText "pizza near me".

End Examples.

(* ===================================================================== *)
(** * Text without blanks at its ends *)
(* ===================================================================== *)

Module Trimmed.



End Trimmed.

(* ===================================================================== *)
(** * The log of a session, read by kind of call *)
(* ===================================================================== *)

Module SearchBarLog.

Import SearchBar.

(** The queries of the entity-preview requests, in order. *)
Definition previewQueries (log : list Call) : list string :=
  flat_map (fun c => match c with ExecuteEntityPreviewsQuery q => [q] | _ => [] end) log.

(** The inputs recorded as recent searches, in order. *)
Definition recordedInputs (log : list Call) : list string :=
  flat_map (fun c => match c with SetRecentSearch input => [input] | _ => [] end) log.

(** How many searches were dispatched. *)
Definition dispatches (log : list Call) : nat :=
  length (filter (fun c => match c with
                           | ExecuteQueryWithNearMeHandling => true
                           | _ => false
                           end) log).

(** The autocomplete endpoints called, in order: [true] for the vertical
    one, [false] for the universal one. *)
Definition endpoints (log : list Call) : list bool :=
  flat_map (fun c => match c with
                     | ExecuteVerticalAutocomplete _ => [true]
                     | ExecuteUniversalAutocomplete _ => [false]
                     | _ => []
                     end) log.

(** The promise reference names the latest issued request, if any. *)
Definition refNamesLatest (w : World) : Prop :=
  SynchronizedRequest.counter (synchronizer w)
  = SynchronizedRequest.latestIssued (synchronizer w) /\
  autocompletePromiseRef w
  = match SynchronizedRequest.latestIssued (synchronizer w) with
    | 0 => None
    | S n => Some (S n)
    end.

Section Steps.
Variables EntityPreviews VerticalResults : Type.
Implicit Types (p : Props EntityPreviews VerticalResults) (e : Env VerticalResults).

(** The call [executeQuery] makes before it dispatches, if any. *)
Definition recordCalls p (input : option string) : list Call :=
  if negb (Js.truthyFlag (hideRecentSearches p)) && Js.truthyString input
  then [SetRecentSearch (Js.defaultEmpty input)]
  else [].

(** The call [updateEntityPreviews] makes, if any. *)
Definition previewCalls p (q : string) : list Call :=
  match renderEntityPreviews p with
  | None => []
  | Some _ => [ExecuteEntityPreviewsQuery q]
  end.

(** The calls the effect of a committed render adds to the log. *)
Definition commitCalls p e (w : World) : list Call :=
  if depsChanged (effectDeps w) (clearRecentSearchesId e, hideRecentSearches p)
     && Js.truthyFlag (hideRecentSearches p)
  then [ClearRecentSearches]
  else [].

(** The calls a handler adds to the log, in program order. *)
Definition handlerCalls p e (ev : Event) (w : World) : list Call :=
  let next := autocompleteCall e (S (SynchronizedRequest.counter (synchronizer w))) in
  match ev with
  | Submit | Click =>
      recordCalls p (queryInput w) ++ [ExecuteQueryWithNearMeHandling]
  | Focus v | Change v =>
      [SetQuery (Js.defaultEmpty v)] ++ previewCalls p (Js.defaultEmpty v) ++ [next]
  | Select v _ metadata =>
      SetQuery (Js.orEmpty v) ::
      match linkOf metadata with
      | Some path => [HistoryPush path]
      | None =>
          next :: recordCalls p (Some (Js.orEmpty v)) ++ [ExecuteQueryWithNearMeHandling]
      end
  | Toggle isActive v =>
      if isActive then []
      else previewCalls p (Js.defaultEmpty v) ++ [SetQuery (Js.defaultEmpty v); next]
  | Resolved _ _ => []
  end.

(** The calls of one step of a session: the effect, then the handler. *)
Definition stepCalls (x : Props EntityPreviews VerticalResults * Env VerticalResults * Event)
    (w : World) : list Call :=
  let '(p, e, ev) := x in
  commitCalls p e w ++ handlerCalls p e ev (exec (commit p e) w).

(** *** What the events of a session ask for *)

(** The event issues an autocomplete request. *)
Definition issuesRequest (ev : Event) : bool :=
  match ev with
  | Focus _ | Change _ => true
  | Select _ _ metadata => match linkOf metadata with Some _ => false | None => true end
  | Toggle isActive _ => negb isActive
  | Submit | Click | Resolved _ _ => false
  end.

(** The event ends in [executeQuery]. *)
Definition runsQuery (ev : Event) : bool :=
  match ev with
  | Submit | Click => true
  | Select _ _ metadata => match linkOf metadata with Some _ => false | None => true end
  | Focus _ | Change _ | Toggle _ _ | Resolved _ _ => false
  end.

(** The query the event hands to [answersActions.setQuery], if it calls it. *)
Definition querySet (ev : Event) : option string :=
  match ev with
  | Focus v | Change v => Some (Js.defaultEmpty v)
  | Select v _ _ => Some (Js.orEmpty v)
  | Toggle isActive v => if isActive then None else Some (Js.defaultEmpty v)
  | Submit | Click | Resolved _ _ => None
  end.

(** The query the last of these events set, or the one before them. *)
Definition lastQuery
    (evs : list (Props EntityPreviews VerticalResults * Env VerticalResults * Event))
    (before : option string) : option string :=
  fold_left (fun q x => match querySet (snd x) with
                        | Some q' => Some q'
                        | None => q
                        end) evs before.

(** The text the event hands to [updateEntityPreviews], if it calls it. *)
Definition previewInput (ev : Event) : list string :=
  match ev with
  | Focus v | Change v => [Js.defaultEmpty v]
  | Toggle isActive v => if isActive then [] else [Js.defaultEmpty v]
  | Submit | Click | Select _ _ _ | Resolved _ _ => []
  end.

Definition previewInputs
    (evs : list (Props EntityPreviews VerticalResults * Env VerticalResults * Event))
    : list string :=
  flat_map (fun x => match renderEntityPreviews (fst (fst x)) with
                     | None => []
                     | Some _ => previewInput (snd x)
                     end) evs.

Definition queriesRun
    (evs : list (Props EntityPreviews VerticalResults * Env VerticalResults * Event))
    : nat :=
  length (filter (fun x => runsQuery (snd x)) evs).

Definition endpointsAsked
    (evs : list (Props EntityPreviews VerticalResults * Env VerticalResults * Event))
    : list bool :=
  flat_map (fun x => if issuesRequest (snd x) then [isVertical (snd (fst x))] else []) evs.

End Steps.

Arguments recordCalls {EntityPreviews VerticalResults}.
Arguments previewCalls {EntityPreviews VerticalResults}.
Arguments commitCalls {EntityPreviews VerticalResults}.
Arguments handlerCalls {EntityPreviews VerticalResults}.
Arguments stepCalls {EntityPreviews VerticalResults}.
Arguments previewInputs {EntityPreviews VerticalResults}.
Arguments lastQuery {EntityPreviews VerticalResults}.
Arguments queriesRun {EntityPreviews VerticalResults}.
Arguments endpointsAsked {EntityPreviews VerticalResults}.

End SearchBarLog.

(* ===================================================================== *)
(** * The first SearchBar of the file (lines 60-172) *)
(* ===================================================================== *)

(** The file holds two components named [SearchBar]. The first one has
    no recent searches, no vertical links and no entity previews: its
    dropdown shows the autocomplete results only, each with its index. *)
Module SearchBarV1.

Import SearchBar.

(** A [DropdownItem] of the first component: it carries its [index]. *)
Record IndexedItem := {
  index : nat;
  item : DropdownItem
}.

(** [xs.map((x, i) => f(x, i))], counting from [i]. *)
Fixpoint mapWithIndex {A B} (f : A -> nat -> B) (i : nat) (xs : list A) : list B :=
  match xs with
  | [] => []
  | x :: xs' => f x i :: mapWithIndex f (S i) xs'
  end.

Section Component.
Variable processTranslation : string -> string -> nat -> string.
Variable VerticalResults : Type.
Implicit Types (e : Env VerticalResults).

(** [autocompleteResponse?.results.length || 0] *)
Definition numItems (autocompleteResponse : option AutocompleteResponse) : nat :=
  let len := option_map (fun r => length (results r)) autocompleteResponse in
  if Js.truthyNumber len then Js.defaultZero len else 0.

Definition screenReaderText (autocompleteResponse : option AutocompleteResponse) : string :=
  let numItems := numItems autocompleteResponse in
  processTranslation
    (Js.ofNat numItems ++ " autocomplete option found.")%string
    (Js.ofNat numItems ++ " autocomplete options found.")%string
    numItems.

(** [numItems > 0 && <StyledDropdownMenu>{autocompleteResponse?.results.map(...)}] *)
Definition dropdownMenu (autocompleteResponse : option AutocompleteResponse)
    : list IndexedItem :=
  if 0 <? numItems autocompleteResponse then
    match autocompleteResponse with
    | Some r =>
        mapWithIndex (fun result i => {| index := i; item := suggestionItem result |})
                     0 (results r)
    | None => []
    end
  else [].

(** What one render hands to [Dropdown]. *)
Record View := {
  viewNumItems : nat;
  viewActive : bool;               (* decides activeClassName *)
  viewScreenReaderText : string;
  viewInitialValue : option string;
  viewIsLoading : bool;
  viewMenu : list IndexedItem
}.

Definition render e (w : World) : View :=
  let autocompleteResponse := SynchronizedRequest.published (synchronizer w) in
  {| viewNumItems := numItems autocompleteResponse;
     viewActive := 0 <? numItems autocompleteResponse;
     viewScreenReaderText := screenReaderText autocompleteResponse;
     viewInitialValue := queryInput w;
     viewIsLoading := match isLoadingState e with Some true => true | _ => false end;
     viewMenu := dropdownMenu autocompleteResponse |}.

Local Open Scope action_scope.

(** [executeQuery] is the search with near-me handling itself. *)
Definition executeQuery : M unit := executeQueryWithNearMeHandling.

Definition onSubmit : M unit := executeQuery.

Definition handleClick : M unit := executeQuery.

Definition onFocus e (v : option string) : M unit :=
  setQuery (Js.orEmpty v) ;;
  promise <- executeAutocomplete e ;;
  putPromiseRef (Some promise).

Definition onChange e (v : option string) : M unit :=
  setQuery (Js.orEmpty v) ;;
  promise <- executeAutocomplete e ;;
  putPromiseRef (Some promise).

Definition onSelect e (v : option string) : M unit :=
  setQuery (Js.orEmpty v) ;;
  promise <- executeAutocomplete e ;;
  putPromiseRef (Some promise) ;;
  executeQuery.

End Component.

Arguments render processTranslation {VerticalResults}.
Arguments onFocus {VerticalResults}.
Arguments onChange {VerticalResults}.
Arguments onSelect {VerticalResults}.

End SearchBarV1.

(* ===================================================================== *)
(** * More concrete sessions *)
(* ===================================================================== *)

Module Sessions.

Import SearchBar Examples.

(** Props that supply [renderEntityPreviews]. *)
Definition withPreviews : Props unit unit :=
  {| hideRecentSearches := None;
     renderEntityPreviews := Some (fun _ _ => tt);
     hideVerticalLinks := None;
     verticalKeyToLabel := None;
     recentSearchesLimit := None |}.

(** A user focuses the empty input, types "b", selects the suggestion,
    then, back in the input, selects the link into "k1". *)
Definition browsing : list (Props unit unit * Env unit * Event) :=
  [(defaultProps, universal, Focus None);
   (defaultProps, universal, Change (Some "b"%string));
   (defaultProps, universal, Resolved 2 suggestionWithLink);
   (defaultProps, universal, Select (Some "b"%string) 0 None);
   (defaultProps, vertical, Toggle false (Some "b"%string));
   (defaultProps, universal,
    Select (Some (itemValue linkRow)) 1 (itemMetadata linkRow))].

(** The same keystrokes with recent searches hidden. *)
Definition browsingHidden : list (Props unit unit * Env unit * Event) :=
  [(hidingRecentSearches, universal, Change (Some "b"%string));
   (hidingRecentSearches, universal, Submit);
   (hidingRecentSearches, universal, Select (Some "b"%string) 0 None)].

(** A row whose metadata carries a link that is no string. *)
Definition numberLink : option Metadata :=
  Some {| verticalLink := Js.Number 7 |}.

(** A store with two entries, one of which matches the query "b". *)
Definition twoStored : list RecentSearches.RecentSearch :=
  [{| RecentSearches.query := "a" |}; {| RecentSearches.query := "b" |}].

(** Three results for the first component. *)
Definition threeResults : AutocompleteResponse :=
  {| results := [{| value := "a"; verticalKeys := None |};
                 {| value := "b"; verticalKeys := Some ["k1"%string] |};
                 {| value := "c"; verticalKeys := None |}] |}.

End Sessions.

(* ===================================================================== *)
(** * Facts about the synchronizer *)
(* ===================================================================== *)

Module SynchronizedRequestFacts.

Import SynchronizedRequest.

Section Facts.
Variable R : Type.
Variable resp : nat -> R.

Lemma inv_issue issued resolved s :
  inv resp issued resolved s -> inv resp (S issued) resolved (snd (issue s)).
Proof.
  intros (Hc & Hl & Hle & _). unfold inv, issue; cbn.
  rewrite Hc. repeat split; trivial.
  - intros k Hk. apply Hle in Hk. lia.
  - intros Hin. apply Hle in Hin. lia.
Qed.

Lemma inv_resolve issued resolved s seq :
  inv resp issued resolved s -> seq <= issued ->
  inv resp issued (seq :: resolved) (resolve seq (resp seq) s).
Proof.
  intros (Hc & Hl & Hle & Hpub) Hseq. unfold inv, resolve.
  rewrite Hl. destruct (Nat.eqb_spec seq issued) as [->|Hne]; cbn.
  - repeat split; trivial. intros k [<-|Hk]; auto.
  - repeat split; trivial.
    + intros k [<-|Hk]; auto.
    + intros [Heq|Hin]; [contradiction|auto].
Qed.

Lemma inv_run es : forall issued resolved s,
  wellFormed issued resolved es -> inv resp issued resolved s ->
  inv resp (issued + issues es) (rev (resolvedIn es) ++ resolved) (run resp es s).
Proof.
  induction es as [|[|seq] es IH]; intros issued resolved s Hwf Hinv.
  - cbn. now rewrite Nat.add_0_r.
  - cbn in Hwf. apply inv_issue in Hinv.
    specialize (IH _ _ _ Hwf Hinv).
    unfold issues in *. cbn [filter length run fold_left resolvedIn flat_map app] in *.
    now rewrite Nat.add_succ_r.
  - cbn in Hwf. destruct Hwf as (_ & Hle & _ & Hwf).
    pose proof (inv_resolve _ _ _ _ Hinv Hle) as Hinv'.
    specialize (IH _ _ _ Hwf Hinv').
    unfold issues in *.
    cbn [filter length run fold_left resolvedIn flat_map app rev] in *.
    now rewrite <- app_assoc.
Qed.

Lemma inv_init : inv resp 0 [] init.
Proof.
  unfold inv, init; cbn. split; [reflexivity|]. split; [reflexivity|].
  split; [intros k []|intros []].
Qed.

(** A response whose request is not the latest issued one is dropped. *)
Lemma resolve_stale seq r (s : t R) :
  seq <> latestIssued s -> resolve seq r s = s.
Proof.
  intros Hne. unfold resolve.
  now destruct (Nat.eqb_spec seq (latestIssued s)).
Qed.

(** After a well-formed schedule, the published response is the response
    of the latest issued request as soon as that request has resolved. *)
Lemma run_latest es :
  wellFormed 0 [] es ->
  In (issues es) (resolvedIn es) ->
  published (run resp es init) = Some (resp (issues es)).
Proof.
  intros Hwf Hin.
  destruct (inv_run es 0 [] init Hwf inv_init) as (_ & _ & _ & Hpub).
  apply Hpub. rewrite app_nil_r. cbn. now apply in_rev in Hin.
Qed.

Lemma run_latestIssued es :
  wellFormed 0 [] es -> latestIssued (run resp es init) = issues es.
Proof.
  intros Hwf.
  now destruct (inv_run es 0 [] init Hwf inv_init) as (_ & Hl & _).
Qed.

Lemma issues_app es1 es2 : issues (es1 ++ es2) = issues es1 + issues es2.
Proof. unfold issues. now rewrite filter_app, length_app. Qed.

Lemma issues_resolves order : issues (map Resolve order) = 0.
Proof. induction order; [reflexivity|exact IHorder]. Qed.

Lemma resolvedIn_app es1 es2 : resolvedIn (es1 ++ es2) = resolvedIn es1 ++ resolvedIn es2.
Proof. unfold resolvedIn. apply flat_map_app. Qed.

Lemma resolvedIn_resolves order : resolvedIn (map Resolve order) = order.
Proof. induction order as [|k order IH]; [reflexivity|]. cbn. now f_equal. Qed.

Lemma resolvedIn_issues es : Forall (eq Issue) es -> resolvedIn es = [].
Proof.
  induction 1 as [|e es He _ IH]; [reflexivity|]. subst e. exact IH.
Qed.

(** Promises that resolve once each, all of requests already issued, form
    a well-formed schedule, whatever their order. *)
Lemma wellFormed_resolves order : forall issued resolved,
  NoDup order ->
  (forall k, In k order -> 1 <= k <= issued /\ ~ In k resolved) ->
  wellFormed issued resolved (map Resolve order).
Proof.
  induction order as [|k order IH]; intros issued resolved Hnd Hin; [exact I|].
  inversion Hnd as [|k' l Hk Hnd']; subst.
  destruct (Hin k (or_introl eq_refl)) as [[Hlo Hhi] Hnot].
  cbn. repeat split; trivial.
  apply IH; [exact Hnd'|].
  intros j Hj. destruct (Hin j (or_intror Hj)) as [Hrange Hnotj].
  split; [exact Hrange|].
  intros [<-|Hres]; [exact (Hk Hj)|exact (Hnotj Hres)].
Qed.

Lemma wellFormed_issues es : forall issued resolved rest,
  Forall (eq Issue) es ->
  wellFormed (issued + issues es) resolved rest ->
  wellFormed issued resolved (es ++ rest).
Proof.
  induction es as [|e es IH]; intros issued resolved rest Hall Hwf.
  - cbn in *. now rewrite Nat.add_0_r in Hwf.
  - inversion Hall as [|e' l He Hall']; subst. cbn.
    apply IH; [exact Hall'|].
    unfold issues in *. cbn [filter length] in Hwf.
    now rewrite Nat.add_succ_r in Hwf.
Qed.

(** The property as the event loop shows it: [n] requests are issued in a
    row and their promises resolve in an arbitrary permuted order; the
    published response is that of request [n]. *)
Lemma issued_then_resolved es order :
  Forall (eq Issue) es ->
  1 <= issues es ->
  Permutation order (seq 1 (issues es)) ->
  published (run resp (es ++ map Resolve order) init) = Some (resp (issues es)).
Proof.
  intros Hall Hpos Hperm.
  assert (Hn : issues (es ++ map Resolve order) = issues es)
    by (rewrite issues_app, issues_resolves; lia).
  rewrite <- Hn. apply run_latest.
  - apply wellFormed_issues; [exact Hall|]. apply wellFormed_resolves.
    + apply (Permutation_NoDup (Permutation_sym Hperm)). apply seq_NoDup.
    + intros k Hk. apply (Permutation_in _ Hperm) in Hk.
      apply in_seq in Hk. split; [lia|intros []].
  - rewrite Hn, resolvedIn_app, resolvedIn_resolves, (resolvedIn_issues es Hall).
    cbn. apply (Permutation_in _ (Permutation_sym Hperm)). apply in_seq. lia.
Qed.

(** Requests issued in a row publish nothing. *)
Lemma run_issues_only es : forall s,
  Forall (eq Issue) es ->
  latestIssued s = counter s ->
  published (run resp es s) = published s /\
  latestIssued (run resp es s) = latestIssued s + issues es /\
  counter (run resp es s) = latestIssued (run resp es s).
Proof.
  induction es as [|ev es IH]; intros s Hall Hs.
  - cbn. now rewrite Nat.add_0_r.
  - inversion Hall as [|ev' l Hev Hall']; subst.
    destruct (IH (snd (issue s)) Hall' eq_refl) as (Hp & Hl & Hc).
    change (run resp (Issue :: es) s) with (run resp es (snd (issue s))).
    change (issues (Issue :: es)) with (S (issues es)).
    rewrite Hp, Hc, Hl. cbn. rewrite Hs. repeat split; lia.
Qed.

(** Of the promises that resolve while no request is issued, only the one
    of the latest issued request is published. *)
Lemma run_resolves arrived : forall s,
  latestIssued (run resp (map Resolve arrived) s) = latestIssued s /\
  published (run resp (map Resolve arrived) s)
  = if existsb (Nat.eqb (latestIssued s)) arrived
    then Some (resp (latestIssued s))
    else published s.
Proof.
  induction arrived as [|k arrived IH]; intros s; [now split|].
  cbn [map run fold_left step existsb].
  destruct (IH (resolve k (resp k) s)) as [Hl Hp].
  unfold run in *. rewrite Hl, Hp. unfold resolve.
  rewrite (Nat.eqb_sym (latestIssued s) k).
  destruct (Nat.eqb_spec k (latestIssued s)) as [->|Hne]; cbn [latestIssued published orb].
  - split; [reflexivity|].
    destruct (existsb (Nat.eqb (latestIssued s)) arrived); reflexivity.
  - now split.
Qed.

(** A schedule cut short is still well formed. *)
Lemma wellFormed_prefix es1 es2 : forall issued resolved,
  wellFormed issued resolved (es1 ++ es2) -> wellFormed issued resolved es1.
Proof.
  induction es1 as [|[|seq] es1 IH]; intros issued resolved Hwf; [exact I| |].
  - cbn in *. now apply IH.
  - cbn in *. destruct Hwf as (H1 & H2 & H3 & Hwf). repeat split; trivial.
    now apply IH.
Qed.

End Facts.

End SynchronizedRequestFacts.

(* ===================================================================== *)
(** * Facts about the component *)
(* ===================================================================== *)

Module SearchBarFacts.

Import SearchBar.

(** Unfolds a handler down to the world it leaves. *)
Ltac unfold_handler :=
  unfold exec, handle, onSubmit, handleClick, onFocus, onChange, onSelect, onToggle,
    executeQuery, updateEntityPreviews, executeAutocomplete, autocompleteCall,
    autocompleteResolved,
    setQuery, setRecentSearch, clearRecentSearches, executeQueryWithNearMeHandling,
    historyPush, getQueryInput, putQueryInput, modifyStore, putSynchronizer,
    putPromiseRef, putEffectDeps, call, bind, ret.

Section Handlers.
Variables EntityPreviews VerticalResults : Type.
Implicit Types (p : Props EntityPreviews VerticalResults) (e : Env VerticalResults).
Implicit Types (w : World) (v : option string) (metadata : option Metadata).

(** The effect of a committed render leaves the synchronizer alone. *)
Lemma synchronizer_commit p e w :
  synchronizer (exec (commit p e) w) = synchronizer w.
Proof.
  unfold exec, commit.
  destruct (depsChanged _ _); [|reflexivity].
  destruct (Js.truthyFlag _); reflexivity.
Qed.

Lemma exec_bind {A B} (c : M A) (k : A -> M B) w :
  exec (bind c k) w = exec (k (fst (c w))) (snd (c w)).
Proof. unfold exec, bind. now destruct (c w). Qed.

(** Every handler acts on the synchronizer as its schedule says:
    [onFocus], [onChange], a closing [onToggle] and [onSelect] of a row
    that is no vertical link issue one request; nothing else does. *)
Lemma synchronizer_handle resp p e ev w :
  match ev with Resolved seq r => r = resp seq | _ => True end ->
  synchronizer (exec (handle p e ev) w)
  = SynchronizedRequest.run resp (scheduleOf ev) (synchronizer w).
Proof.
  intros Hr. destruct ev as [| |v|v|v i metadata|isActive v|seq r]; cbn [scheduleOf].
  - unfold_handler. destruct (Js.truthyFlag _); cbn; [reflexivity|].
    destruct (Js.truthyString _); reflexivity.
  - unfold_handler. destruct (Js.truthyFlag _); cbn; [reflexivity|].
    destruct (Js.truthyString _); reflexivity.
  - unfold_handler. destruct (renderEntityPreviews p), (isVertical e); reflexivity.
  - unfold_handler. destruct (renderEntityPreviews p), (isVertical e); reflexivity.
  - unfold_handler. destruct (linkOf metadata); [reflexivity|].
    destruct (isVertical e), (Js.truthyFlag _); cbn; try reflexivity;
      destruct (Js.orEmpty v); reflexivity.
  - unfold_handler. destruct isActive; cbn; [reflexivity|].
    destruct (renderEntityPreviews p), (isVertical e); reflexivity.
  - subst r. reflexivity.
Qed.

Lemma run_app {R} (resp : nat -> R) es1 es2 s :
  SynchronizedRequest.run resp (es1 ++ es2) s
  = SynchronizedRequest.run resp es2 (SynchronizedRequest.run resp es1 s).
Proof. unfold SynchronizedRequest.run. apply fold_left_app. Qed.

Lemma synchronizer_session resp (evs : list (Props EntityPreviews VerticalResults * Env VerticalResults * Event)) :
  forall w, answeredBy resp evs ->
  synchronizer (session evs w)
  = SynchronizedRequest.run resp (schedule evs) (synchronizer w).
Proof.
  induction evs as [|[[p e] ev] evs IH]; intros w Hans; [reflexivity|].
  inversion Hans as [|x l Hev Hrest]; subst.
  cbn [session schedule flat_map snd]. rewrite run_app.
  rewrite (IH _ Hrest). f_equal.
  rewrite exec_bind. rewrite (synchronizer_handle resp) by exact Hev.
  f_equal. apply synchronizer_commit.
Qed.

Lemma schedule_app (evs1 evs2 : list (Props EntityPreviews VerticalResults * Env VerticalResults * Event)) :
  schedule (evs1 ++ evs2) = schedule evs1 ++ schedule evs2.
Proof. unfold schedule. apply flat_map_app. Qed.

Lemma schedule_responses resp p e arrived :
  schedule (map (fun seq => (p, e, Resolved seq (resp seq))) arrived)
  = map SynchronizedRequest.Resolve arrived.
Proof. induction arrived as [|k l IH]; [reflexivity|]. cbn. now f_equal. Qed.

Lemma answeredBy_responses resp p e arrived :
  answeredBy resp (map (fun seq => (p, e, Resolved seq (resp seq))) arrived).
Proof. induction arrived; constructor; [reflexivity|assumption]. Qed.

Lemma schedule_issues_only (evs : list (Props EntityPreviews VerticalResults * Env VerticalResults * Event)) :
  Forall (fun x => match snd x with Resolved _ _ => False | _ => True end) evs ->
  Forall (eq SynchronizedRequest.Issue) (schedule evs).
Proof.
  induction 1 as [|[[p e] ev] evs Hev _ IH]; [constructor|].
  cbn [schedule flat_map snd]. apply Forall_app. split; [|exact IH].
  destruct ev as [| |v|v|v i metadata|isActive v|seq r]; cbn in *;
    try destruct (linkOf metadata); try destruct isActive;
    repeat constructor; contradiction.
Qed.

Lemma answeredBy_issues_only resp (evs : list (Props EntityPreviews VerticalResults * Env VerticalResults * Event)) :
  Forall (fun x => match snd x with Resolved _ _ => False | _ => True end) evs ->
  answeredBy resp evs.
Proof.
  induction 1 as [|x l Hx _ IH]; constructor; [|exact IH].
  now destruct (snd x).
Qed.

(** The property as the event loop shows it. Requests are issued in a row
    by any events of the search bar, and then responses arrive, in
    whatever order and however many of them: as long as the response to
    the latest request is not among them nothing is published, and from
    then on that response is, whatever arrives after it. *)
Lemma issued_in_a_row_then_any_order resp p e
    (ui : list (Props EntityPreviews VerticalResults * Env VerticalResults * Event))
    (arrived : list nat) :
  Forall (fun x => match snd x with Resolved _ _ => False | _ => True end) ui ->
  let w := session (ui ++ map (fun seq => (p, e, Resolved seq (resp seq))) arrived)
             initialWorld in
  let latest := SynchronizedRequest.issues (schedule ui) in
  SynchronizedRequest.latestIssued (synchronizer w) = latest /\
  SynchronizedRequest.published (synchronizer w)
  = if existsb (Nat.eqb latest) arrived then Some (resp latest) else None.
Proof.
  intros Hui. cbn zeta.
  pose proof (schedule_issues_only ui Hui) as Hissues.
  assert (Hans : answeredBy resp
                   (ui ++ map (fun seq => (p, e, Resolved seq (resp seq))) arrived))
    by (apply Forall_app; split;
        [now apply answeredBy_issues_only|apply answeredBy_responses]).
  rewrite (synchronizer_session resp _ _ Hans).
  rewrite schedule_app, schedule_responses, run_app.
  destruct (SynchronizedRequestFacts.run_issues_only _ resp (schedule ui)
              SynchronizedRequest.init Hissues eq_refl) as (Hp & Hl & _).
  destruct (SynchronizedRequestFacts.run_resolves _ resp arrived
              (SynchronizedRequest.run resp (schedule ui) SynchronizedRequest.init))
    as [Hl' Hp'].
  change (synchronizer initialWorld) with (@SynchronizedRequest.init AutocompleteResponse).
  rewrite Hl', Hp', Hl, Hp. cbn. now split.
Qed.

(** A session cut short at any moment is a session of the same kind, so
    what holds at the end of every such session holds throughout. *)
Lemma session_prefix resp
    (evs1 evs2 : list (Props EntityPreviews VerticalResults * Env VerticalResults * Event)) :
  answeredBy resp (evs1 ++ evs2) ->
  SynchronizedRequest.wellFormed 0 [] (schedule (evs1 ++ evs2)) ->
  answeredBy resp evs1 /\ SynchronizedRequest.wellFormed 0 [] (schedule evs1).
Proof.
  intros Hans Hwf. split.
  - now apply Forall_app in Hans.
  - rewrite schedule_app in Hwf.
    now apply SynchronizedRequestFacts.wellFormed_prefix in Hwf.
Qed.

(** A response to a request that is not the latest issued one changes
    nothing at all. *)
Lemma stale_response_discarded p e seq r w :
  seq <> SynchronizedRequest.latestIssued (synchronizer w) ->
  exec (handle p e (Resolved seq r)) w = w.
Proof.
  intros Hne. unfold_handler. cbn.
  rewrite SynchronizedRequestFacts.resolve_stale by exact Hne.
  now destruct w.
Qed.

(** C1. Take any session of the search bar in which the backend answers
    request [seq] with [resp seq], every promise resolving after its
    request was issued and at most once, in any order and interleaved in
    any way with the events that issue requests ([onFocus], [onChange], a
    closing [onToggle], [onSelect] of a row that is no vertical link).
    Then the latest issued request is the number of issuing events so far;
    once it has resolved, the response the component renders from is its
    response; and the response to any other request, arriving now, is
    discarded without a trace. A session cut short is such a session
    again, so this holds at every moment of it. *)
Theorem autocomplete_publishes_latest_request
    (resp : nat -> AutocompleteResponse)
    (evs : list (Props EntityPreviews VerticalResults * Env VerticalResults * Event)) :
  answeredBy resp evs ->
  SynchronizedRequest.wellFormed 0 [] (schedule evs) ->
  let w := session evs initialWorld in
  let latest := SynchronizedRequest.latestIssued (synchronizer w) in
  latest = SynchronizedRequest.issues (schedule evs) /\
  (In latest (SynchronizedRequest.resolvedIn (schedule evs)) ->
   SynchronizedRequest.published (synchronizer w) = Some (resp latest)) /\
  (forall p e seq r, seq <> latest -> exec (handle p e (Resolved seq r)) w = w).
Proof.
  intros Hans Hwf w latest.
  assert (Hsync : synchronizer w
                  = SynchronizedRequest.run resp (schedule evs) SynchronizedRequest.init)
    by (apply synchronizer_session; exact Hans).
  assert (Hlatest : latest = SynchronizedRequest.issues (schedule evs)).
  { unfold latest. rewrite Hsync.
    now apply SynchronizedRequestFacts.run_latestIssued. }
  split; [exact Hlatest|]. split.
  - intros Hin. rewrite Hsync, Hlatest.
    apply SynchronizedRequestFacts.run_latest; [exact Hwf|now rewrite <- Hlatest].
  - intros p e seq r Hne. now apply stale_response_discarded.
Qed.

(** *** What the handlers call, and in which order *)

(** Normalises the log of a handler to [calls w ++ new]. *)
Ltac normalise_log := cbn; rewrite <- ?app_assoc; cbn [app].

Lemma orEmpty_Some (s : string) : Js.orEmpty (Some s) = s.
Proof. now destruct s. Qed.

Lemma truthyString_orEmpty v : Js.truthyString (Some (Js.orEmpty v)) = Js.truthyString v.
Proof. now destruct v as [[|c s]|]. Qed.

Lemma calls_executeQuery p w :
  calls (exec (executeQuery p) w)
  = calls w
    ++ (if negb (Js.truthyFlag (hideRecentSearches p)) && Js.truthyString (queryInput w)
        then [SetRecentSearch (Js.defaultEmpty (queryInput w))] else [])
    ++ [ExecuteQueryWithNearMeHandling].
Proof.
  unfold_handler. destruct (Js.truthyFlag _); cbn; [reflexivity|].
  destruct (Js.truthyString _); normalise_log; reflexivity.
Qed.

Lemma store_executeQuery p w :
  recentSearchStore (exec (executeQuery p) w)
  = if negb (Js.truthyFlag (hideRecentSearches p)) && Js.truthyString (queryInput w)
    then RecentSearches.setRecentSearch (limitOf p) (Js.defaultEmpty (queryInput w))
           (recentSearchStore w)
    else recentSearchStore w.
Proof.
  unfold_handler. destruct (Js.truthyFlag _); cbn; [reflexivity|].
  destruct (Js.truthyString _); reflexivity.
Qed.

Lemma exec_onSelect_link p e v index metadata path w :
  linkOf metadata = Some path ->
  exec (onSelect p e v index metadata) w
  = {| queryInput := Some (Js.orEmpty v);
       recentSearchStore := recentSearchStore w;
       synchronizer := synchronizer w;
       autocompletePromiseRef := autocompletePromiseRef w;
       effectDeps := effectDeps w;
       calls := calls w ++ [SetQuery (Js.orEmpty v); HistoryPush path] |}.
Proof.
  intros Hlink. unfold_handler. rewrite Hlink. normalise_log. reflexivity.
Qed.

Lemma calls_onSelect_query p e v index metadata w :
  linkOf metadata = None ->
  calls (exec (onSelect p e v index metadata) w)
  = calls w
    ++ [SetQuery (Js.orEmpty v);
        autocompleteCall e (S (SynchronizedRequest.counter (synchronizer w)))]
    ++ (if negb (Js.truthyFlag (hideRecentSearches p)) && Js.truthyString v
        then [SetRecentSearch (Js.orEmpty v)] else [])
    ++ [ExecuteQueryWithNearMeHandling].
Proof.
  intros Hlink. rewrite <- truthyString_orEmpty.
  unfold_handler. unfold autocompleteCall. rewrite Hlink.
  destruct (isVertical e), (Js.truthyFlag _); normalise_log; try reflexivity;
    destruct (Js.orEmpty v); normalise_log; reflexivity.
Qed.

Lemma store_onSelect_query p e v index metadata w :
  linkOf metadata = None ->
  recentSearchStore (exec (onSelect p e v index metadata) w)
  = if negb (Js.truthyFlag (hideRecentSearches p)) && Js.truthyString v
    then RecentSearches.setRecentSearch (limitOf p) (Js.orEmpty v) (recentSearchStore w)
    else recentSearchStore w.
Proof.
  intros Hlink. rewrite <- truthyString_orEmpty.
  unfold_handler. rewrite Hlink.
  destruct (isVertical e), (Js.truthyFlag _); cbn; try reflexivity;
    destruct (Js.orEmpty v); reflexivity.
Qed.

(** Every handler only adds to the log; none clears the recent searches,
    and none navigates but the selection of a vertical link. *)
Lemma calls_handle p e ev w :
  exists new,
    calls (exec (handle p e ev) w) = calls w ++ new /\
    existsb isClear new = false /\
    (match ev with Select _ _ metadata => linkOf metadata = None | _ => True end ->
     existsb isHistoryPush new = false).
Proof.
  destruct ev as [| |v|v|v i metadata|isActive v|seq r]; cbn [handle].
  - unfold onSubmit. rewrite calls_executeQuery. eexists. split; [reflexivity|].
    destruct (_ && _); split; reflexivity.
  - unfold handleClick. rewrite calls_executeQuery. eexists. split; [reflexivity|].
    destruct (_ && _); split; reflexivity.
  - unfold_handler.
    destruct (renderEntityPreviews p), (isVertical e); normalise_log;
      (eexists; split; [reflexivity|split; reflexivity]).
  - unfold_handler.
    destruct (renderEntityPreviews p), (isVertical e); normalise_log;
      (eexists; split; [reflexivity|split; reflexivity]).
  - destruct (linkOf metadata) as [path|] eqn:Hlink.
    + rewrite (exec_onSelect_link _ _ _ _ _ _ _ Hlink). cbn [calls].
      eexists. split; [reflexivity|]. split; [reflexivity|discriminate].
    + rewrite (calls_onSelect_query _ _ _ _ _ _ Hlink).
      eexists. split; [reflexivity|]. unfold autocompleteCall.
      destruct (isVertical e), (_ && _); split; reflexivity.
  - unfold_handler. destruct isActive; cbn [negb].
    + exists []. rewrite app_nil_r. repeat split.
    + destruct (renderEntityPreviews p), (isVertical e); normalise_log;
        (eexists; split; [reflexivity|split; reflexivity]).
  - exists []. rewrite app_nil_r. repeat split.
Qed.

(** C5. On submit (the form or the search button) and on the selection
    of a row that is no vertical link, the current query is recorded into
    the recent searches exactly when recent searches are not hidden and
    the query is non-empty, and then the search with near-me handling is
    invoked: the call that records comes before the one that dispatches.
    A selection first makes the row's value the current query and issues
    an autocomplete request. *)
Theorem query_recorded_then_dispatched p e w :
  let recording (input : option string) :=
    negb (Js.truthyFlag (hideRecentSearches p)) && Js.truthyString input in
  let recorded (input : option string) :=
    if recording input then [SetRecentSearch (Js.defaultEmpty input)] else [] in
  let stored (input : option string) :=
    if recording input
    then RecentSearches.setRecentSearch (limitOf p) (Js.defaultEmpty input)
           (recentSearchStore w)
    else recentSearchStore w in
  (forall ev, ev = Submit \/ ev = Click ->
     calls (exec (handle p e ev) w)
     = calls w ++ recorded (queryInput w) ++ [ExecuteQueryWithNearMeHandling] /\
     recentSearchStore (exec (handle p e ev) w) = stored (queryInput w)) /\
  (forall v index metadata, linkOf metadata = None ->
     calls (exec (handle p e (Select v index metadata)) w)
     = calls w
       ++ [SetQuery (Js.orEmpty v);
           autocompleteCall e (S (SynchronizedRequest.counter (synchronizer w)))]
       ++ recorded (Some (Js.orEmpty v)) ++ [ExecuteQueryWithNearMeHandling] /\
     recentSearchStore (exec (handle p e (Select v index metadata)) w)
     = stored (Some (Js.orEmpty v))).
Proof.
  cbn zeta. split.
  - intros ev [->| ->]; cbn [handle]; unfold onSubmit, handleClick;
      now rewrite calls_executeQuery, store_executeQuery.
  - intros v index metadata Hlink. cbn [handle Js.defaultEmpty].
    rewrite (calls_onSelect_query _ _ _ _ _ _ Hlink).
    rewrite (store_onSelect_query _ _ _ _ _ _ Hlink).
    now rewrite truthyString_orEmpty.
Qed.

(** C6. The selection of a row whose metadata carries a vertical link
    makes the row's value the query and navigates to the link; it records
    no recent search and dispatches no query. No other event navigates. *)
Theorem vertical_link_selection_navigates p e w :
  (forall v index metadata path, linkOf metadata = Some path ->
     let w' := exec (handle p e (Select v index metadata)) w in
     calls w' = calls w ++ [SetQuery (Js.orEmpty v); HistoryPush path] /\
     recentSearchStore w' = recentSearchStore w) /\
  (forall ev,
     match ev with Select _ _ metadata => linkOf metadata = None | _ => True end ->
     exists new,
       calls (exec (handle p e ev) w) = calls w ++ new /\
       existsb isHistoryPush new = false).
Proof.
  split.
  - intros v index metadata path Hlink. cbn [handle] in *. cbn zeta.
    now rewrite (exec_onSelect_link _ _ _ _ _ _ _ Hlink).
  - intros ev Hev. destruct (calls_handle p e ev w) as (new & Hcalls & _ & Hnav).
    exists new. split; [exact Hcalls|exact (Hnav Hev)].
Qed.

(** C10. The selection of a vertical-link row changes the world in two
    ways only: the query of the search state becomes the row's value, and
    the log gains [setQuery] followed by the navigation. The synchronizer,
    the promise reference and the recent searches are as before: no
    autocomplete request is issued and no query executed. *)
Theorem vertical_link_selection_sets_query_only p e w v index metadata path :
  linkOf metadata = Some path ->
  exec (handle p e (Select v index metadata)) w
  = {| queryInput := Some (Js.orEmpty v);
       recentSearchStore := recentSearchStore w;
       synchronizer := synchronizer w;
       autocompletePromiseRef := autocompletePromiseRef w;
       effectDeps := effectDeps w;
       calls := calls w ++ [SetQuery (Js.orEmpty v); HistoryPush path] |}
  /\ (forall rowValue, v = Some rowValue -> Js.orEmpty v = rowValue).
Proof.
  intros Hlink. split.
  - cbn [handle]. now apply exec_onSelect_link.
  - intros rowValue ->. apply orEmpty_Some.
Qed.

(** C8. When a render is committed with [hideRecentSearches] set while
    the effect last ran with it unset (or never ran), the effect clears
    the recent searches, whatever they hold. The clearing belongs to the
    commit of the render, with no event involved; and no event handler
    ever clears them. *)
Theorem hiding_recent_searches_clears_store p e w :
  Js.truthyFlag (hideRecentSearches p) = true ->
  match effectDeps w with
  | Some (_, before) => Js.truthyFlag before = false
  | None => True
  end ->
  let w' := exec (commit p e) w in
  (recentSearchStore w' = [] /\
   calls w' = calls w ++ [ClearRecentSearches] /\
   effectDeps w' = Some (clearRecentSearchesId e, hideRecentSearches p)) /\
  (forall ev, exists new,
     calls (exec (handle p e ev) w) = calls w ++ new /\ existsb isClear new = false).
Proof.
  intros Hhide Hbefore. cbn zeta. split.
  - unfold exec, commit.
    assert (Hchanged : depsChanged (effectDeps w)
                         (clearRecentSearchesId e, hideRecentSearches p) = true).
    { unfold depsChanged. destruct (effectDeps w) as [[id before]|]; [|reflexivity].
      cbn [fst snd].
      destruct (hideRecentSearches p) as [[|]|]; try discriminate.
      destruct before as [[|]|]; try discriminate;
        now rewrite ?andb_false_r. }
    rewrite Hchanged, Hhide. repeat split.
  - intros ev. destruct (calls_handle p e ev w) as (new & Hcalls & Hclear & _).
    now exists new.
Qed.

End Handlers.

Section Rendering.
Variables EntityPreviews VerticalResults : Type.
Variable transformEntityPreviews : EntityPreviews -> list VerticalResults -> Element.
Implicit Types (p : Props EntityPreviews VerticalResults) (e : Env VerticalResults).
Implicit Types (autocompleteResponse : option AutocompleteResponse).
Implicit Types (filtered : option (list RecentSearches.RecentSearch)).

Lemma items_Children cs : items (Children cs) = flat_map items cs.
Proof. induction cs as [|c cs IH]; [reflexivity|]. cbn in *. now rewrite IH. Qed.

Lemma items_mapped_items {A} (f : A -> DropdownItem) (l : list A) :
  items (Children (map (fun a => Item (f a)) l)) = map f l.
Proof.
  rewrite items_Children. induction l as [|a l IH]; [reflexivity|].
  cbn in *. now rewrite IH.
Qed.

Lemma items_renderRecentSearches e filtered :
  items (renderRecentSearches e filtered)
  = if isVertical e then []
    else map recentSearchItem (match filtered with Some rs => rs | None => [] end).
Proof.
  unfold renderRecentSearches. destruct (isVertical e); [reflexivity|].
  destruct filtered as [rs|]; [|reflexivity]. apply items_mapped_items.
Qed.

Lemma items_renderVerticalLinks p e result :
  items (renderVerticalLinks p e result)
  = if negb (Js.truthyFlag (hideVerticalLinks p)) && negb (isVertical e)
    then map (verticalLinkItem p result)
             (match verticalKeys result with Some keys => keys | None => [] end)
    else [].
Proof.
  unfold renderVerticalLinks.
  destruct (Js.truthyFlag _), (isVertical e); try reflexivity.
  cbn [negb andb]. destruct (verticalKeys result) as [keys|]; [|reflexivity].
  apply items_mapped_items.
Qed.

Lemma items_renderQuerySuggestions p e autocompleteResponse :
  items (renderQuerySuggestions p e autocompleteResponse)
  = flat_map (fun result => suggestionItem result :: items (renderVerticalLinks p e result))
             (match autocompleteResponse with Some r => results r | None => [] end).
Proof.
  unfold renderQuerySuggestions. destruct autocompleteResponse as [r|]; [|reflexivity].
  rewrite items_Children. induction (results r) as [|result rs IH]; [reflexivity|].
  cbn [map flat_map]. rewrite IH, items_Children. cbn [flat_map items].
  now rewrite app_nil_r.
Qed.

Lemma hasItems_false e autocompleteResponse filtered :
  hasItems e autocompleteResponse filtered = false ->
  items (renderRecentSearches e filtered) = [] /\
  forall p, items (renderQuerySuggestions p e autocompleteResponse) = [].
Proof.
  unfold hasItems. intros H. apply orb_false_elim in H as [Hres Hrec]. split.
  - rewrite items_renderRecentSearches. destruct (isVertical e); [reflexivity|].
    destruct filtered as [[|r rs]|]; try reflexivity. discriminate.
  - intros p. rewrite items_renderQuerySuggestions.
    destruct autocompleteResponse as [[[|r rs]]|]; try reflexivity. discriminate.
Qed.

(** C2. The rows of the dropdown menu are, in this order: the
    recent-search rows (none in a vertical context), then for every result
    of the autocomplete response its suggestion row immediately followed by
    its own vertical-link rows, then the rows of the entity previews. The
    menu is rendered only when there is a recent-search or suggestion row
    to show; when it is not, both of these groups are empty. *)
Theorem menu_rows_order p e autocompleteResponse filtered :
  let recent :=
    if isVertical e then []
    else map recentSearchItem (match filtered with Some rs => rs | None => [] end) in
  let suggestions :=
    flat_map (fun result => suggestionItem result :: items (renderVerticalLinks p e result))
             (match autocompleteResponse with Some r => results r | None => [] end) in
  let previews := items (renderEntityPreviewRows transformEntityPreviews p e) in
  items (dropdownMenu transformEntityPreviews p e autocompleteResponse filtered)
  = (if hasItems e autocompleteResponse filtered
     then recent ++ suggestions ++ previews
     else [])
  /\ (hasItems e autocompleteResponse filtered = false -> recent = [] /\ suggestions = []).
Proof.
  cbn zeta. split.
  - unfold dropdownMenu. destruct (hasItems _ _ _); [|reflexivity].
    unfold menuChildren. rewrite items_Children. cbn [flat_map].
    rewrite items_renderRecentSearches, items_renderQuerySuggestions.
    now rewrite app_nil_r.
  - intros H. destruct (hasItems_false _ _ _ H) as [Hrec Hsug].
    rewrite <- items_renderRecentSearches, <- (items_renderQuerySuggestions p).
    now rewrite Hrec, Hsug.
Qed.

(** C3. A suggestion gets vertical-link rows if and only if vertical
    links are not hidden, the context is not vertical and the suggestion
    carries at least one vertical key. There is one row per key, in order,
    selected with the suggestion's value and carrying the destination
    [/verticalKey?query=value]; an empty key set gives no row. *)
Theorem vertical_link_rows p e result :
  let rows := items (renderVerticalLinks p e result) in
  (rows <> [] <->
     Js.truthyFlag (hideVerticalLinks p) = false /\
     isVertical e = false /\
     exists key keys, verticalKeys result = Some (key :: keys)) /\
  (rows <> [] ->
     exists keys, verticalKeys result = Some keys /\
     map itemValue rows = map (fun _ => value result) keys /\
     map itemMetadata rows
     = map (fun key =>
              Some {| verticalLink :=
                        Js.Str ("/" ++ key ++ "?query=" ++ value result)%string |})
           keys) /\
  (verticalKeys result = Some [] -> rows = []).
Proof.
  cbn zeta. rewrite items_renderVerticalLinks.
  destruct (Js.truthyFlag (hideVerticalLinks p)) eqn:Hhide,
           (isVertical e) eqn:Hvert,
           (verticalKeys result) as [[|key keys]|] eqn:Hkeys;
    cbn [negb andb map];
    (split; [split|split]);
    try (intros H; exfalso; now apply H);
    try (intros (H1 & H2 & k & ks & H3); discriminate);
    try (intros _; reflexivity);
    try discriminate.
  - intros _. repeat split; trivial. now exists key, keys.
  - intros _. exists (key :: keys). split; [reflexivity|].
    cbn [map itemValue itemMetadata verticalLinkItem]. split; f_equal.
    + now rewrite map_map.
    + now rewrite map_map.
Qed.

(** *** Recent searches in a vertical context, and the summary *)

(** In a vertical context no recent-search row is rendered. *)
Lemma vertical_hides_recent_rows e filtered :
  isVertical e = true -> items (renderRecentSearches e filtered) = [].
Proof. intros Hv. rewrite items_renderRecentSearches. now rewrite Hv. Qed.

(** In a vertical context [hasItems] does not look at the recent searches. *)
Lemma vertical_hasItems_ignores_recent e autocompleteResponse filtered filtered' :
  isVertical e = true ->
  hasItems e autocompleteResponse filtered = hasItems e autocompleteResponse filtered'.
Proof. intros Hv. unfold hasItems. now rewrite Hv. Qed.

Lemma filter_recentSearchItems rs :
  filter isRecentSearchRow (map recentSearchItem rs) = map recentSearchItem rs.
Proof. induction rs as [|r rs IH]; [reflexivity|]. cbn. now rewrite IH. Qed.

Lemma filter_suggestion_links p result keys :
  filter isSuggestionRow (map (verticalLinkItem p result) keys) = [].
Proof. induction keys as [|k keys IH]; [reflexivity|exact IH]. Qed.

Lemma suggestion_rows_of_links p e result :
  filter isSuggestionRow (items (renderVerticalLinks p e result)) = [].
Proof.
  rewrite items_renderVerticalLinks.
  destruct (_ && _); [apply filter_suggestion_links|reflexivity].
Qed.

Lemma count_suggestion_rows p e autocompleteResponse :
  countRows isSuggestionRow (items (renderQuerySuggestions p e autocompleteResponse))
  = match autocompleteResponse with Some r => length (results r) | None => 0 end.
Proof.
  unfold countRows. rewrite items_renderQuerySuggestions.
  destruct autocompleteResponse as [r|]; [|reflexivity].
  induction (results r) as [|result rs IH]; [reflexivity|].
  cbn [flat_map]. change (?x :: ?l ++ ?m) with ((x :: l) ++ m).
  rewrite filter_app, length_app, IH. cbn [filter isSuggestionRow suggestionItem icon].
  now rewrite suggestion_rows_of_links.
Qed.

Lemma count_recent_rows e filtered :
  isVertical e = false ->
  countRows isRecentSearchRow (items (renderRecentSearches e filtered))
  = match filtered with Some rs => length rs | None => 0 end.
Proof.
  intros Hv. unfold countRows. rewrite items_renderRecentSearches, Hv.
  rewrite filter_recentSearchItems, length_map. now destruct filtered.
Qed.

Section Summary.
Variable processTranslation : string -> string -> nat -> string.

(** C7, as the code has it. Outside a vertical context the summary is
    the phrase for the recent searches, present only when there is at
    least one recent-search row, a space, and the phrase for the
    suggestions, trimmed; each phrase is pluralized by its own count. The
    first count is the number of recent-search rows, the second the number
    of query-suggestion rows: vertical-link rows are not counted. *)
Theorem summary_counts_rows p e autocompleteResponse filtered :
  isVertical e = false ->
  let recentRows :=
    countRows isRecentSearchRow (items (renderRecentSearches e filtered)) in
  let suggestionRows :=
    countRows isSuggestionRow (items (renderQuerySuggestions p e autocompleteResponse)) in
  screenReaderText processTranslation autocompleteResponse filtered
  = Js.trim
      ((if (0 <? recentRows)%nat
        then processTranslation
               (Js.ofNat recentRows ++ " recent search found.")
               (Js.ofNat recentRows ++ " recent searches found.")
               recentRows
        else "")
       ++ " " ++
       processTranslation
         (Js.ofNat suggestionRows ++ " autocomplete suggestion found.")
         (Js.ofNat suggestionRows ++ " autocomplete suggestions found.")
         suggestionRows)%string.
Proof.
  intros Hv. cbn zeta. rewrite count_suggestion_rows, (count_recent_rows _ _ Hv).
  unfold screenReaderText, getScreenReaderText.
  destruct autocompleteResponse as [r|], filtered as [rs|]; reflexivity.
Qed.

End Summary.

End Rendering.

(** *** The claims at concrete sessions *)

Import Examples.

(** Three requests answered in the order 2, 3, 1: the third response stays. *)
Lemma autocomplete_publishes_latest_request_witness :
  answeredBy numbered typing /\
  SynchronizedRequest.wellFormed 0 [] (schedule typing) /\
  SynchronizedRequest.published (synchronizer (session typing initialWorld))
  = Some (numbered 3).
Proof.
  assert (Hans : answeredBy numbered typing) by (repeat constructor).
  assert (Hwf : SynchronizedRequest.wellFormed 0 [] (schedule typing))
    by (cbn; intuition lia).
  split; [exact Hans|]. split; [exact Hwf|].
  apply (proj1 (proj2 (autocomplete_publishes_latest_request unit unit numbered typing Hans Hwf))).
  cbn. auto.
Defined.

(** The menu for the suggestion "b" found in "k1": the suggestion, then its link. *)
Lemma menu_rows_order_witness :
  items (viewMenu bView)
  = [suggestionItem {| value := "b"; verticalKeys := Some ["k1"%string] |}; linkRow].
Proof.
  exact (proj1 (menu_rows_order unit unit noPreviews defaultProps universal
                  (Some suggestionWithLink) (Some []))).
Defined.

(** The link row of "b" into "k1" leads to [/k1?query=b]. *)
Lemma vertical_link_rows_witness :
  map itemMetadata
      (items (renderVerticalLinks defaultProps universal
                {| value := "b"; verticalKeys := Some ["k1"%string] |}))
  = [Some {| verticalLink := Js.Str "/k1?query=b" |}].
Proof.
  destruct (proj1 (proj2 (vertical_link_rows unit unit defaultProps universal
                            {| value := "b"; verticalKeys := Some ["k1"%string] |})))
    as (keys & Hkeys & _ & Hmeta).
  - discriminate.
  - injection Hkeys as <-. exact Hmeta.
Defined.

(** Selecting the suggestion "b" records it before the search is dispatched. *)
Lemma query_recorded_then_dispatched_witness :
  calls (exec (handle defaultProps universal (Select (Some "b"%string) 0 None)) initialWorld)
  = [SetQuery "b"; ExecuteUniversalAutocomplete 1; SetRecentSearch "b";
     ExecuteQueryWithNearMeHandling].
Proof.
  exact (proj1 (proj2 (query_recorded_then_dispatched unit unit defaultProps universal
                         initialWorld) (Some "b"%string) 0 None eq_refl)).
Defined.

(** Selecting the link row of "b" into "k1" sets the query and navigates. *)
Lemma vertical_link_selection_navigates_witness :
  calls (exec (handle defaultProps universal
                 (Select (Some (itemValue linkRow)) 1 (itemMetadata linkRow)))
              initialWorld)
  = [SetQuery "b"; HistoryPush "/k1?query=b"].
Proof.
  exact (proj1 (proj1 (vertical_link_selection_navigates unit unit defaultProps universal
                         initialWorld)
                  (Some (itemValue linkRow)) 1 (itemMetadata linkRow) "/k1?query=b"%string
                  eq_refl)).
Defined.

(** Selecting the link row of "b" into "k1" makes "b" the query. *)
Lemma vertical_link_selection_sets_query_only_witness :
  queryInput (exec (handle defaultProps universal
                      (Select (Some (itemValue linkRow)) 1 (itemMetadata linkRow)))
                   initialWorld)
  = Some "b"%string.
Proof.
  exact (f_equal queryInput
           (proj1 (vertical_link_selection_sets_query_only unit unit defaultProps universal
                     initialWorld (Some (itemValue linkRow)) 1 (itemMetadata linkRow)
                     "/k1?query=b"%string eq_refl))).
Defined.

(** With "pizza" stored, a render that hides recent searches empties the store. *)
Lemma hiding_recent_searches_clears_store_witness :
  recentSearchStore afterPizza = [{| RecentSearches.query := "pizza" |}] /\
  recentSearchStore (exec (commit hidingRecentSearches vertical) afterPizza) = [].
Proof.
  split; [reflexivity|].
  exact (proj1 (proj1 (hiding_recent_searches_clears_store unit unit hidingRecentSearches
                         vertical afterPizza eq_refl eq_refl))).
Defined.

(** One suggestion with one link and no recent search: one phrase, counting one. *)
Lemma summary_counts_rows_witness :
  isVertical universal = false /\
  viewScreenReaderText bView = "1 autocomplete suggestion found."%string.
Proof.
  split; [reflexivity|].
  exact (summary_counts_rows unit unit Translation.processTranslation defaultProps universal
           (Some suggestionWithLink) (Some []) eq_refl).
Defined.

(** C4, at a session. On a vertical page "pizza" is typed and submitted,
    which stores it. The next render shows no recent-search row and
    [hasItems] is false, yet the summary announces one recent search: the
    stored entry does contribute to a derived output. Without the entry
    the summary has the phrase for the suggestions alone. *)
Theorem vertical_context_still_announces_recent_searches :
  isVertical vertical = true /\
  recentSearchStore afterPizza = [{| RecentSearches.query := "pizza" |}] /\
  items (viewMenu pizzaView) = [] /\
  viewHasItems pizzaView = false /\
  viewScreenReaderText pizzaView
  = "1 recent search found. 0 autocomplete suggestions found."%string /\
  viewScreenReaderText pizzaViewEmptyStore = "0 autocomplete suggestions found."%string.
Proof. repeat split. Qed.

(** C7, as stated, fails. On a universal page "b" is suggested, with a
    link into one vertical, and nothing is stored. The menu has two rows
    that come from the autocomplete response and no recent-search row; the
    summary is the single phrase for one suggestion. It is not the pair of
    phrases for the rows present, whether the vertical-link row counts as
    an autocomplete row or not. *)
Lemma summary_not_as_specified :
  let rows := items (viewMenu bView) in
  countRows isRecentSearchRow rows = 0 /\
  countRows isSuggestionRow rows = 1 /\
  countRows isVerticalLinkRow rows = 1 /\
  viewScreenReaderText bView = "1 autocomplete suggestion found."%string /\
  viewScreenReaderText bView
  <> summaryAsSpecified Translation.processTranslation
       (countRows isRecentSearchRow rows)
       (countRows (fun it => isSuggestionRow it || isVerticalLinkRow it) rows) /\
  viewScreenReaderText bView
  <> summaryAsSpecified Translation.processTranslation
       (countRows isRecentSearchRow rows)
       (countRows isSuggestionRow rows).
Proof. cbn zeta. repeat split; vm_compute; discriminate. Qed.

End SearchBarFacts.

(* ===================================================================== *)
(** * Facts about the near-me dispatch *)
(* ===================================================================== *)

Module NearMeFacts.

Import NearMe.

Section Dispatch.
Variable isNearMe : string -> bool.
Variable timeout : nat.

(** Whatever the geolocation provider does, exactly one search is
    executed, with the text that was dispatched. *)
Lemma dispatch_executes_once sessionLocation answer queryText :
  exists q,
    executed (snd (dispatch isNearMe timeout sessionLocation answer queryText)) = [q] /\
    text q = queryText.
Proof.
  unfold dispatch. destruct (needsGeolocation _ _ _); [|now eexists].
  destruct (race timeout answer) as [[c| |]|]; now eexists.
Qed.

(** C9. When a dispatched query needs geolocation and the lookup times
    out, is denied or is unavailable, exactly one search is executed, for
    the original text and with no coordinates, and a warning is surfaced;
    the location known to the session is as before. And whatever the
    outcome of the lookup, one search is executed for the original text. *)
Theorem geolocation_failure_dispatches_original sessionLocation answer queryText :
  needsGeolocation isNearMe sessionLocation queryText = true ->
  (forall c, race timeout answer <> Settled (Located c)) ->
  let result := dispatch isNearMe timeout sessionLocation answer queryText in
  executed (snd result) = [{| text := queryText; coordinates := None |}] /\
  warned (snd result) = true /\
  fst result = sessionLocation /\
  (forall answer', exists q,
     executed (snd (dispatch isNearMe timeout sessionLocation answer' queryText)) = [q] /\
     text q = queryText).
Proof.
  intros Hneeds Hfail. cbn zeta. unfold dispatch. rewrite Hneeds.
  split; [|split; [|split]].
  - destruct (race timeout answer) as [[c| |]|]; try reflexivity.
    now destruct (Hfail c).
  - destruct (race timeout answer) as [[c| |]|]; try reflexivity.
    now destruct (Hfail c).
  - destruct (race timeout answer) as [[c| |]|]; try reflexivity.
    now destruct (Hfail c).
  - intros answer'.
    destruct (dispatch_executes_once sessionLocation answer' queryText) as (q & Hq).
    exists q. unfold dispatch in Hq. now rewrite Hneeds in Hq.
Qed.

(** A lookup that never answers loses the race. *)
Lemma race_never : race timeout None = TimedOut.
Proof. reflexivity. Qed.

(** A lookup that answers when the timeout has elapsed loses the race. *)
Lemma race_late delay r : timeout <= delay -> race timeout (Some (delay, r)) = TimedOut.
Proof.
  intros Hlate. unfold race. destruct (Nat.ltb_spec delay timeout); [lia|reflexivity].
Qed.

End Dispatch.

(** A lookup that never answers, and one that is denied: the text goes out as typed. *)
Lemma geolocation_failure_dispatches_original_witness :
  executed (snd (dispatch Examples.nearMeQuery 1000 None None "pizza near me"))
  = [{| text := "pizza near me"; coordinates := None |}] /\
  executed (snd (dispatch Examples.nearMeQuery 1000 None (Some (200, PermissionDenied))
                   "pizza near me"))
  = [{| text := "pizza near me"; coordinates := None |}].
Proof.
  split.
  - refine (proj1 (geolocation_failure_dispatches_original Examples.nearMeQuery 1000
                     None None "pizza near me" eq_refl _)).
    intros c. discriminate.
  - refine (proj1 (geolocation_failure_dispatches_original Examples.nearMeQuery 1000
                     None (Some (200, PermissionDenied)) "pizza near me" eq_refl _)).
    intros c. discriminate.
Defined.

End NearMeFacts.

(* ===================================================================== *)
(** * Facts about the log of a session *)
(* ===================================================================== *)

Module SearchBarLogFacts.

Import SearchBar SearchBarLog.

Ltac unfold_handler := SearchBarFacts.unfold_handler.
(** Normalises the log of a handler to [calls w ++ new]. *)
Ltac flatten_log := cbn; rewrite <- ?app_assoc; cbn [app].

Section Steps.
Variables EntityPreviews VerticalResults : Type.
Implicit Types (p : Props EntityPreviews VerticalResults) (e : Env VerticalResults).
Implicit Types (w : World) (v : option string) (metadata : option Metadata).
Implicit Types (evs : list (Props EntityPreviews VerticalResults * Env VerticalResults * Event)).

Lemma calls_commit p e w :
  calls (exec (commit p e) w) = calls w ++ commitCalls p e w.
Proof.
  unfold exec, commit, commitCalls.
  destruct (depsChanged _ _); cbn [andb]; [|now rewrite app_nil_r].
  destruct (Js.truthyFlag _); cbn; [reflexivity|now rewrite app_nil_r].
Qed.

Lemma calls_handler p e ev w :
  calls (exec (handle p e ev) w) = calls w ++ handlerCalls p e ev w.
Proof.
  destruct ev as [| |v|v|v i metadata|isActive v|seq r]; cbn [handle handlerCalls].
  - unfold onSubmit. now rewrite SearchBarFacts.calls_executeQuery.
  - unfold handleClick. now rewrite SearchBarFacts.calls_executeQuery.
  - unfold_handler. unfold previewCalls.
    destruct (renderEntityPreviews p); flatten_log; reflexivity.
  - unfold_handler. unfold previewCalls.
    destruct (renderEntityPreviews p); flatten_log; reflexivity.
  - destruct (linkOf metadata) as [path|] eqn:Hlink.
    + now rewrite (SearchBarFacts.exec_onSelect_link _ _ _ _ _ _ _ _ _ Hlink).
    + rewrite (SearchBarFacts.calls_onSelect_query _ _ _ _ _ _ _ _ Hlink).
      unfold recordCalls. now rewrite SearchBarFacts.truthyString_orEmpty.
  - unfold_handler. unfold previewCalls. destruct isActive; cbn [negb].
    + now rewrite app_nil_r.
    + destruct (renderEntityPreviews p); flatten_log; reflexivity.
  - cbn. now rewrite app_nil_r.
Qed.

Lemma calls_step p e ev w :
  calls (exec (bind (commit p e) (fun _ => handle p e ev)) w)
  = calls w ++ stepCalls (p, e, ev) w.
Proof.
  rewrite SearchBarFacts.exec_bind. cbn [stepCalls].
  change (snd (commit p e w)) with (exec (commit p e) w).
  now rewrite calls_handler, calls_commit, app_assoc.
Qed.

(** Whatever is read call by call off the log of a session is the
    concatenation of what is read off its steps. *)
Lemma projected_session {X} (f : Call -> list X)
    (g : Props EntityPreviews VerticalResults * Env VerticalResults * Event -> list X) :
  (forall x w, flat_map f (stepCalls x w) = g x) ->
  forall evs w,
    flat_map f (calls (session evs w)) = flat_map f (calls w) ++ flat_map g evs.
Proof.
  intros Hstep. induction evs as [|[[p e] ev] evs IH]; intros w.
  - cbn. now rewrite app_nil_r.
  - cbn [session flat_map]. rewrite IH, calls_step, flat_map_app, Hstep.
    now rewrite app_assoc.
Qed.

(** Splits a step into the cases of its effect and its handler. *)
Ltac step_cases :=
  intros [[p e] ev] w; cbn [stepCalls fst snd];
  unfold commitCalls, handlerCalls, recordCalls, previewCalls, autocompleteCall;
  destruct (depsChanged _ _ && _);
  destruct ev as [| |v|v|v i metadata|isActive v|seq r];
  repeat match goal with
         | |- context [if ?b then _ else _] => destruct b
         | |- context [match ?x with _ => _ end] => destruct x
         end.

Lemma previewQueries_step
    (x : Props EntityPreviews VerticalResults * Env VerticalResults * Event) w :
  previewQueries (stepCalls x w)
  = match renderEntityPreviews (fst (fst x)) with
    | None => []
    | Some _ => previewInput (snd x)
    end.
Proof. revert x w. step_cases; reflexivity. Qed.

Lemma endpoints_step
    (x : Props EntityPreviews VerticalResults * Env VerticalResults * Event) w :
  endpoints (stepCalls x w)
  = if issuesRequest (snd x) then [isVertical (snd (fst x))] else [].
Proof.
  revert x w. intros [[p e] ev] w. cbn [stepCalls fst snd].
  unfold commitCalls, handlerCalls, recordCalls, previewCalls, autocompleteCall, issuesRequest.
  destruct (depsChanged _ _ && _);
    destruct ev as [| |v|v|v i metadata|isActive v|seq r];
    try destruct (linkOf metadata); try destruct isActive;
    destruct (isVertical e); try destruct (renderEntityPreviews p);
    try destruct (_ && _); reflexivity.
Qed.

(** X2. The entity-preview requests of a session are those of its
    focus, change and closing-toggle events under props that supply
    [renderEntityPreviews], one each, with the text of the input, in
    order. Where the prop is never supplied no preview request is made. *)
Theorem preview_requests_follow_input evs w :
  previewQueries (calls (session evs w)) = previewQueries (calls w) ++ previewInputs evs /\
  (Forall (fun x => renderEntityPreviews (fst (fst x)) = None) evs ->
   previewQueries (calls (session evs w)) = previewQueries (calls w)).
Proof.
  assert (Hall : previewQueries (calls (session evs w))
                 = previewQueries (calls w) ++ previewInputs evs)
    by (apply (projected_session _ _ previewQueries_step)).
  split; [exact Hall|].
  intros Hnone. rewrite Hall.
  assert (Hempty : previewInputs evs = []).
  { clear Hall. unfold previewInputs. induction Hnone as [|x l Hx _ IH]; [reflexivity|].
    cbn [flat_map]. now rewrite Hx, IH. }
  now rewrite Hempty, app_nil_r.
Qed.

(** X3. Every event that issues an autocomplete request calls one
    endpoint, the vertical one exactly when the render it arrives in is
    on a vertical search; no other event calls an endpoint. *)
Theorem endpoints_follow_search_type evs w :
  endpoints (calls (session evs w)) = endpoints (calls w) ++ endpointsAsked evs.
Proof. apply (projected_session _ _ endpoints_step). Qed.

Lemma dispatches_app log1 log2 :
  dispatches (log1 ++ log2) = dispatches log1 + dispatches log2.
Proof. unfold dispatches. now rewrite filter_app, length_app. Qed.

Lemma dispatches_step
    (x : Props EntityPreviews VerticalResults * Env VerticalResults * Event) w :
  dispatches (stepCalls x w) = if runsQuery (snd x) then 1 else 0.
Proof.
  revert x w. intros [[p e] ev] w. cbn [stepCalls fst snd].
  unfold commitCalls, handlerCalls, recordCalls, previewCalls, autocompleteCall, runsQuery.
  destruct (depsChanged _ _ && _);
    destruct ev as [| |v|v|v i metadata|isActive v|seq r];
    try destruct (linkOf metadata); try destruct isActive;
    try destruct (isVertical e); try destruct (renderEntityPreviews p);
    try destruct (_ && _); reflexivity.
Qed.

(** X4. A session dispatches exactly one search per submit, click of
    the search button and selection of a row that is no vertical link;
    focus, change, toggle, the selection of a link and the arrival of a
    response dispatch none. *)
Theorem one_dispatch_per_query evs : forall w,
  dispatches (calls (session evs w)) = dispatches (calls w) + queriesRun evs.
Proof.
  induction evs as [|[[p e] ev] evs IH]; intros w.
  - cbn. now rewrite Nat.add_0_r.
  - cbn [session]. rewrite IH, calls_step, dispatches_app, dispatches_step.
    unfold queriesRun. cbn [filter snd]. destruct (runsQuery ev); cbn [length]; lia.
Qed.

Lemma recordedInputs_app log1 log2 :
  recordedInputs (log1 ++ log2) = recordedInputs log1 ++ recordedInputs log2.
Proof. unfold recordedInputs. apply flat_map_app. Qed.

Lemma recordedInputs_step
    (x : Props EntityPreviews VerticalResults * Env VerticalResults * Event) w :
  Forall (fun input => input <> ""%string) (recordedInputs (stepCalls x w)) /\
  length (recordedInputs (stepCalls x w)) <= (if runsQuery (snd x) then 1 else 0) /\
  (Js.truthyFlag (hideRecentSearches (fst (fst x))) = true ->
   recordedInputs (stepCalls x w) = []).
Proof.
  destruct x as [[p e] ev]. cbn [stepCalls fst snd].
  rewrite recordedInputs_app.
  assert (Hcommit : recordedInputs (commitCalls p e w) = [])
    by (unfold commitCalls; now destruct (_ && _)).
  rewrite Hcommit. cbn [app].
  assert (Hrecord : forall input,
             let recorded :=
               recordedInputs (recordCalls p input ++ [ExecuteQueryWithNearMeHandling]) in
             Forall (fun s => s <> ""%string) recorded /\
             length recorded <= 1 /\
             (Js.truthyFlag (hideRecentSearches p) = true -> recorded = [])).
  { intros input. unfold recordCalls.
    destruct (Js.truthyFlag (hideRecentSearches p)); cbn;
      [repeat split; auto|].
    destruct input as [[|c s]|]; cbn; repeat split; auto; try discriminate.
    constructor; [discriminate|constructor]. }
  unfold recordedInputs in *.
  unfold handlerCalls, previewCalls, autocompleteCall, runsQuery.
  destruct ev as [| |v|v|v i metadata|isActive v|seq r];
    try destruct (linkOf metadata); try destruct isActive;
    try destruct (isVertical e); try destruct (renderEntityPreviews p);
    cbn [flat_map app]; try apply Hrecord; repeat split; auto.
Qed.

(** X5. In any session the inputs recorded as recent searches are never
    empty, there is at most one per query run, and none is recorded in a
    session whose renders all hide the recent searches. *)
Theorem recorded_inputs_of_session evs : forall w,
  exists new,
    recordedInputs (calls (session evs w)) = recordedInputs (calls w) ++ new /\
    Forall (fun input => input <> ""%string) new /\
    length new <= queriesRun evs /\
    (Forall (fun x => Js.truthyFlag (hideRecentSearches (fst (fst x))) = true) evs ->
     new = []).
Proof.
  induction evs as [|[[p e] ev] evs IH]; intros w.
  - exists []. cbn. rewrite app_nil_r. repeat split; auto.
  - cbn [session].
    destruct (IH (exec (bind (commit p e) (fun _ => handle p e ev)) w))
      as (new & Hnew & Hink & Hlen & Hhid).
    destruct (recordedInputs_step (p, e, ev) w) as (Hink1 & Hlen1 & Hhid1).
    exists (recordedInputs (stepCalls (p, e, ev) w) ++ new).
    rewrite Hnew, calls_step, recordedInputs_app, app_assoc.
    split; [reflexivity|]. split; [now apply Forall_app|]. split.
    + rewrite length_app. unfold queriesRun in *. cbn [filter snd] in *.
      destruct (runsQuery ev); cbn [length]; lia.
    + intros Hall. inversion Hall as [|x l Hx Hl]; subst.
      rewrite (Hhid1 Hx), (Hhid Hl). reflexivity.
Qed.

End Steps.


(** In the browsing session no render supplies [renderEntityPreviews]:
    no preview request is made. *)
Lemma preview_requests_follow_input_witness :
  Forall (fun x => renderEntityPreviews (fst (fst x)) = None) Sessions.browsing /\
  previewQueries (calls (session Sessions.browsing initialWorld)) = [].
Proof.
  assert (Hnone : Forall (fun x : Props unit unit * Env unit * Event =>
                            renderEntityPreviews (fst (fst x)) = None) Sessions.browsing)
    by (repeat constructor).
  split; [exact Hnone|].
  exact (proj2 (preview_requests_follow_input unit unit Sessions.browsing initialWorld) Hnone).
Defined.

(** With recent searches hidden, submitting and selecting "b" records nothing. *)
Lemma recorded_inputs_of_session_witness :
  recordedInputs (calls (session Sessions.browsingHidden initialWorld)) = [].
Proof.
  destruct (recorded_inputs_of_session unit unit Sessions.browsingHidden initialWorld)
    as (new & Hnew & _ & _ & Hhidden).
  rewrite Hnew. apply Hhidden. repeat constructor.
Defined.

End SearchBarLogFacts.

(* ===================================================================== *)
(** * Facts about trimmed text *)
(* ===================================================================== *)

Module TrimmedFacts.

Import Trimmed.






End TrimmedFacts.


(* ===================================================================== *)
(** * More facts about the component *)
(* ===================================================================== *)

Module SearchBarInvariants.

Import SearchBar SearchBarLog.

Ltac unfold_handler := SearchBarFacts.unfold_handler.

Section Handlers.
Variables EntityPreviews VerticalResults : Type.
Implicit Types (p : Props EntityPreviews VerticalResults) (e : Env VerticalResults).
Implicit Types (w : World) (v : option string) (metadata : option Metadata).
Implicit Types (evs : list (Props EntityPreviews VerticalResults * Env VerticalResults * Event)).

Lemma refNamesLatest_commit p e w :
  refNamesLatest w -> refNamesLatest (exec (commit p e) w).
Proof.
  unfold refNamesLatest, exec, commit.
  destruct (depsChanged _ _); [|trivial].
  destruct (Js.truthyFlag _); trivial.
Qed.

Lemma refNamesLatest_handle p e ev w :
  refNamesLatest w -> refNamesLatest (exec (handle p e ev) w).
Proof.
  unfold refNamesLatest. intros [Hc Hr].
  destruct ev as [| |v|v|v i metadata|isActive v|seq r].
  - unfold_handler. destruct (Js.truthyFlag _); cbn; [now split|].
    destruct (Js.truthyString _); now split.
  - unfold_handler. destruct (Js.truthyFlag _); cbn; [now split|].
    destruct (Js.truthyString _); now split.
  - unfold_handler. destruct (renderEntityPreviews p), (isVertical e); now split.
  - unfold_handler. destruct (renderEntityPreviews p), (isVertical e); now split.
  - unfold_handler. destruct (linkOf metadata); [now split|].
    destruct (isVertical e), (Js.truthyFlag _); cbn; try (now split);
      destruct (Js.orEmpty v); now split.
  - unfold_handler. destruct isActive; cbn; [now split|].
    destruct (renderEntityPreviews p), (isVertical e); now split.
  - unfold_handler. cbn. unfold SynchronizedRequest.resolve.
    destruct (seq =? _); now split.
Qed.

(** X1. At every moment of a session, whatever responses have arrived,
    [autocompletePromiseRef.current] is the promise of the latest issued
    autocomplete request, and it is unset only while none was issued. *)
Theorem promise_ref_names_latest_request evs :
  refNamesLatest (session evs initialWorld).
Proof.
  assert (Hinit : refNamesLatest initialWorld) by (now split).
  revert Hinit. generalize initialWorld.
  induction evs as [|[[p e] ev] evs IH]; intros w Hw; [exact Hw|].
  cbn [session]. apply IH. rewrite SearchBarFacts.exec_bind.
  apply refNamesLatest_handle.
  change (snd (commit p e w)) with (exec (commit p e) w).
  now apply refNamesLatest_commit.
Qed.

Lemma depsChanged_same id (hide : option bool) :
  depsChanged (Some (id, hide)) (id, hide) = false.
Proof.
  unfold depsChanged. cbn [fst snd]. rewrite Nat.eqb_refl.
  now destruct hide as [[|]|].
Qed.

Lemma depsChanged_false old new :
  depsChanged old new = false -> old = Some new.
Proof.
  unfold depsChanged. destruct old as [[id hide]|], new as [id' hide']; [|discriminate].
  cbn [fst snd]. intros H. apply negb_false_iff, andb_true_iff in H as [Hid Hhide].
  apply Nat.eqb_eq in Hid as ->.
  destruct hide as [[|]|], hide' as [[|]|]; try discriminate; reflexivity.
Qed.

Lemma effectDeps_commit p e w :
  effectDeps (exec (commit p e) w)
  = Some (clearRecentSearchesId e, hideRecentSearches p).
Proof.
  unfold exec, commit.
  destruct (depsChanged _ _) eqn:Hchanged.
  - destruct (Js.truthyFlag _); reflexivity.
  - now apply depsChanged_false.
Qed.

Lemma commit_unchanged p e w :
  effectDeps w = Some (clearRecentSearchesId e, hideRecentSearches p) ->
  exec (commit p e) w = w.
Proof.
  intros Hdeps. unfold exec, commit. now rewrite Hdeps, depsChanged_same.
Qed.

(** X6. The effect of the component runs when a dependency changed and
    not otherwise: committing the same render again changes nothing. And
    a render that does not hide the recent searches never clears them,
    whatever the store holds. *)
Theorem effect_runs_on_change_only p e w :
  exec (commit p e) (exec (commit p e) w) = exec (commit p e) w /\
  (Js.truthyFlag (hideRecentSearches p) = false ->
   recentSearchStore (exec (commit p e) w) = recentSearchStore w /\
   calls (exec (commit p e) w) = calls w).
Proof.
  split.
  - apply commit_unchanged, effectDeps_commit.
  - intros Hshown. unfold exec, commit.
    destruct (depsChanged _ _); [|now split].
    rewrite Hshown. now split.
Qed.

(** X7. A row whose metadata carries a [verticalLink] that is no string
    is selected like a row without metadata: the query is run, nothing is
    navigated to. *)
Theorem link_that_is_no_string_is_ignored p e v index link w :
  Js.typeofIsString link = false ->
  let metadata := Some {| verticalLink := link |} in
  exec (onSelect p e v index metadata) w = exec (onSelect p e v index None) w /\
  calls (exec (onSelect p e v index metadata) w)
  = calls w
    ++ [SetQuery (Js.orEmpty v);
        autocompleteCall e (S (SynchronizedRequest.counter (synchronizer w)))]
    ++ recordCalls p (Some (Js.orEmpty v)) ++ [ExecuteQueryWithNearMeHandling].
Proof.
  intros Hlink metadata.
  assert (Hnone : linkOf metadata = None) by (now destruct link).
  split.
  - unfold onSelect. now rewrite Hnone.
  - rewrite (SearchBarFacts.calls_onSelect_query _ _ _ _ _ _ _ _ Hnone).
    unfold recordCalls. now rewrite SearchBarFacts.truthyString_orEmpty.
Qed.

(** X8. Whatever row of its own the component renders, a recent search,
    a suggestion or a vertical link, selecting it with the row's value and
    metadata makes that value the query. A row with a link is a link of
    some result of the response into one of its verticals, and selecting
    it navigates to [/verticalKey?query=value] and does nothing else; any
    other row issues an autocomplete request and runs the query. *)
Theorem selecting_a_rendered_row p e autocompleteResponse filtered it index w :
  In it (items (renderRecentSearches e filtered)
         ++ items (renderQuerySuggestions p e autocompleteResponse)) ->
  let w' := exec (onSelect p e (Some (itemValue it)) index (itemMetadata it)) w in
  queryInput w' = Some (itemValue it) /\
  match linkOf (itemMetadata it) with
  | Some path =>
      (exists r result keys key,
         autocompleteResponse = Some r /\ In result (results r) /\
         verticalKeys result = Some keys /\ In key keys /\
         itemValue it = value result /\
         path = ("/" ++ key ++ "?query=" ++ value result)%string) /\
      calls w' = calls w ++ [SetQuery (itemValue it); HistoryPush path]
  | None =>
      calls w'
      = calls w
        ++ [SetQuery (itemValue it);
            autocompleteCall e (S (SynchronizedRequest.counter (synchronizer w)))]
        ++ recordCalls p (Some (itemValue it)) ++ [ExecuteQueryWithNearMeHandling]
  end.
Proof.
  intros Hin. cbn zeta.
  assert (Hquery : queryInput (exec (onSelect p e (Some (itemValue it)) index
                                       (itemMetadata it)) w)
                   = Some (itemValue it)).
  { destruct (linkOf (itemMetadata it)) as [path|] eqn:Hlink.
    - rewrite (SearchBarFacts.exec_onSelect_link _ _ _ _ _ _ _ _ _ Hlink).
      cbn [queryInput]. now rewrite SearchBarFacts.orEmpty_Some.
    - unfold_handler. rewrite Hlink, SearchBarFacts.orEmpty_Some.
      destruct (isVertical e), (Js.truthyFlag _); cbn; try reflexivity;
        destruct (itemValue it); reflexivity. }
  split; [exact Hquery|].
  assert (Hplain : linkOf (itemMetadata it) = None ->
            calls (exec (onSelect p e (Some (itemValue it)) index (itemMetadata it)) w)
            = calls w
              ++ [SetQuery (itemValue it);
                  autocompleteCall e (S (SynchronizedRequest.counter (synchronizer w)))]
              ++ recordCalls p (Some (itemValue it)) ++ [ExecuteQueryWithNearMeHandling]).
  { intros Hnone. rewrite (SearchBarFacts.calls_onSelect_query _ _ _ _ _ _ _ _ Hnone).
    unfold recordCalls. cbn [Js.defaultEmpty].
    now rewrite SearchBarFacts.orEmpty_Some,
      <- (SearchBarFacts.truthyString_orEmpty (Some (itemValue it))),
      SearchBarFacts.orEmpty_Some. }
  apply in_app_or in Hin as [Hrecent|Hsuggestion].
  - rewrite SearchBarFacts.items_renderRecentSearches in Hrecent.
    destruct (isVertical e); [destruct Hrecent|].
    apply in_map_iff in Hrecent as (stored & <- & _). cbn [recentSearchItem itemMetadata linkOf].
    now apply Hplain.
  - rewrite SearchBarFacts.items_renderQuerySuggestions in Hsuggestion.
    apply in_flat_map in Hsuggestion as (result & Hresult & [<-|Hlink]).
    + cbn [suggestionItem itemMetadata linkOf]. now apply Hplain.
    + rewrite SearchBarFacts.items_renderVerticalLinks in Hlink.
      destruct (_ && _); [|destruct Hlink].
      destruct (verticalKeys result) as [keys|] eqn:Hkeys; [|destruct Hlink].
      apply in_map_iff in Hlink as (key & <- & Hkey).
      destruct autocompleteResponse as [r|]; [|destruct Hresult].
      cbn [verticalLinkItem itemMetadata itemValue linkOf verticalLink]. split.
      * exists r, result, keys, key. repeat split; trivial.
      * erewrite SearchBarFacts.exec_onSelect_link by reflexivity.
        cbn [calls]. now rewrite SearchBarFacts.orEmpty_Some.
Qed.

Lemma queryInput_step p e ev w :
  queryInput (exec (bind (commit p e) (fun _ => handle p e ev)) w)
  = match querySet ev with
    | Some q => Some q
    | None => queryInput w
    end.
Proof.
  rewrite SearchBarFacts.exec_bind.
  change (snd (commit p e w)) with (exec (commit p e) w).
  assert (Hcommit : queryInput (exec (commit p e) w) = queryInput w).
  { unfold exec, commit. destruct (depsChanged _ _); [|reflexivity].
    destruct (Js.truthyFlag _); reflexivity. }
  rewrite <- Hcommit. generalize (exec (commit p e) w). clear Hcommit w. intros w.
  destruct ev as [| |v|v|v i metadata|isActive v|seq r]; cbn [querySet].
  - unfold_handler. destruct (Js.truthyFlag _); cbn; [reflexivity|].
    destruct (Js.truthyString _); reflexivity.
  - unfold_handler. destruct (Js.truthyFlag _); cbn; [reflexivity|].
    destruct (Js.truthyString _); reflexivity.
  - unfold_handler. destruct (renderEntityPreviews p), (isVertical e); reflexivity.
  - unfold_handler. destruct (renderEntityPreviews p), (isVertical e); reflexivity.
  - unfold_handler. destruct (linkOf metadata); [reflexivity|].
    destruct (isVertical e), (Js.truthyFlag _); cbn; try reflexivity;
      destruct (Js.orEmpty v); reflexivity.
  - unfold_handler. destruct isActive; cbn; [reflexivity|].
    destruct (renderEntityPreviews p), (isVertical e); reflexivity.
  - reflexivity.
Qed.

(** X15. After any session the query of the search state is the text of
    the last focus, change, selection or closing toggle, with [undefined]
    read as the empty text; submitting, clicking the button, opening the
    dropdown and the arrival of a response leave the query as it is. *)
Theorem query_follows_last_input evs : forall w,
  queryInput (session evs w) = lastQuery evs (queryInput w).
Proof.
  induction evs as [|[[p e] ev] evs IH]; intros w; [reflexivity|].
  cbn [session lastQuery fold_left snd]. rewrite IH, queryInput_step. reflexivity.
Qed.

End Handlers.

Section Rendering.
Variables EntityPreviews VerticalResults : Type.
Variable transformEntityPreviews : EntityPreviews -> list VerticalResults -> Element.
Variable isCloseMatch : string -> string -> bool.
Variable processTranslation : string -> string -> nat -> string.
Implicit Types (p : Props EntityPreviews VerticalResults) (e : Env VerticalResults).
Implicit Types (autocompleteResponse : option AutocompleteResponse).
Implicit Types (filtered : option (list RecentSearches.RecentSearch)).

(** X9. [hasItems], which decides the active style of the dropdown, is
    true exactly when the menu has a row: entity previews alone never
    open the menu, and an open menu is never empty. *)
Theorem hasItems_iff_menu_has_rows p e autocompleteResponse filtered :
  hasItems e autocompleteResponse filtered = true <->
  items (dropdownMenu transformEntityPreviews p e autocompleteResponse filtered) <> [].
Proof.
  unfold dropdownMenu.
  destruct (hasItems e autocompleteResponse filtered) eqn:Hhas.
  - split; [intros _|reflexivity].
    unfold menuChildren. rewrite SearchBarFacts.items_Children. cbn [flat_map].
    rewrite SearchBarFacts.items_renderRecentSearches,
      SearchBarFacts.items_renderQuerySuggestions.
    unfold hasItems in Hhas.
    destruct autocompleteResponse as [[[|result rs]]|]; cbn in Hhas.
    + destruct (isVertical e); [discriminate|].
      destruct filtered as [[|stored l]|]; discriminate.
    + destruct (if isVertical e then [] else _); discriminate.
    + destruct (isVertical e); [discriminate|].
      destruct filtered as [[|stored l]|]; discriminate.
  - split; [discriminate|]. intros H. now destruct H.
Qed.

(** X10. Outside a vertical context the recent-search rows are the
    stored searches whose query closely matches the live one, in the
    order of the store, each selected with its stored query; in a
    vertical context no stored search gets a row. *)
Theorem recent_rows_are_stored_matches e store query :
  map itemValue
      (items (renderRecentSearches e
                (filteredRecentSearches isCloseMatch (Some store) query)))
  = if isVertical e then []
    else filter (fun stored => isCloseMatch stored query)
                (map RecentSearches.query store).
Proof.
  rewrite SearchBarFacts.items_renderRecentSearches.
  destruct (isVertical e); [reflexivity|].
  cbn [filteredRecentSearches option_map]. rewrite map_map. cbn [recentSearchItem itemValue].
  induction store as [|stored store IH]; [reflexivity|].
  cbn [filter map]. destruct (isCloseMatch _ _); cbn [map]; now rewrite IH.
Qed.


End Rendering.


(** A render that shows the recent searches keeps the stored "pizza". *)
Lemma effect_runs_on_change_only_witness :
  recentSearchStore (exec (commit Examples.defaultProps Examples.vertical) Examples.afterPizza)
  = [{| RecentSearches.query := "pizza" |}].
Proof.
  exact (proj1 (proj2 (effect_runs_on_change_only unit unit Examples.defaultProps
                         Examples.vertical Examples.afterPizza) eq_refl)).
Defined.

(** A row whose link is the number 7 is selected like a suggestion. *)
Lemma link_that_is_no_string_is_ignored_witness :
  calls (exec (onSelect Examples.defaultProps Examples.universal (Some "b"%string) 0
                 Sessions.numberLink) initialWorld)
  = [SetQuery "b"; ExecuteUniversalAutocomplete 1; SetRecentSearch "b";
     ExecuteQueryWithNearMeHandling].
Proof.
  exact (proj2 (link_that_is_no_string_is_ignored unit unit Examples.defaultProps
                  Examples.universal (Some "b"%string) 0 (Js.Number 7) initialWorld eq_refl)).
Defined.

(** The link row of "b" into "k1" is rendered, and selecting it makes "b" the query. *)
Lemma selecting_a_rendered_row_witness :
  In Examples.linkRow
     (items (renderRecentSearches Examples.universal None)
      ++ items (renderQuerySuggestions Examples.defaultProps Examples.universal
                  (Some Examples.suggestionWithLink))) /\
  queryInput (exec (onSelect Examples.defaultProps Examples.universal
                      (Some (itemValue Examples.linkRow)) 1
                      (itemMetadata Examples.linkRow)) initialWorld)
  = Some "b"%string.
Proof.
  assert (Hin : In Examples.linkRow
                   (items (renderRecentSearches Examples.universal None)
                    ++ items (renderQuerySuggestions Examples.defaultProps
                                Examples.universal (Some Examples.suggestionWithLink))))
    by (right; left; reflexivity).
  split; [exact Hin|].
  exact (proj1 (selecting_a_rendered_row unit unit Examples.defaultProps Examples.universal
                  (Some Examples.suggestionWithLink) None Examples.linkRow 1 initialWorld
                  Hin)).
Defined.

(** One suggestion is enough for the menu to have rows. *)
Lemma hasItems_iff_menu_has_rows_witness :
  items (dropdownMenu Examples.noPreviews Examples.defaultProps Examples.universal
           (Some Examples.suggestionWithLink) None) <> [].
Proof.
  exact (proj1 (hasItems_iff_menu_has_rows unit unit Examples.noPreviews
                  Examples.defaultProps Examples.universal
                  (Some Examples.suggestionWithLink) None) eq_refl).
Defined.


End SearchBarInvariants.

(* ===================================================================== *)
(** * Facts about the first SearchBar *)
(* ===================================================================== *)

Module SearchBarV1Facts.

Import SearchBar.

Lemma index_mapWithIndex {A} (f : A -> DropdownItem) (xs : list A) : forall i,
  map SearchBarV1.index
      (SearchBarV1.mapWithIndex
         (fun x j => {| SearchBarV1.index := j; SearchBarV1.item := f x |}) i xs)
  = seq i (length xs).
Proof.
  induction xs as [|x xs IH]; intros i; [reflexivity|].
  cbn. now rewrite IH.
Qed.

Lemma item_mapWithIndex {A} (f : A -> DropdownItem) (xs : list A) : forall i,
  map SearchBarV1.item
      (SearchBarV1.mapWithIndex
         (fun x j => {| SearchBarV1.index := j; SearchBarV1.item := f x |}) i xs)
  = map f xs.
Proof.
  induction xs as [|x xs IH]; intros i; [reflexivity|].
  cbn. now rewrite IH.
Qed.

Lemma numItems_length autocompleteResponse :
  SearchBarV1.numItems autocompleteResponse
  = match autocompleteResponse with Some r => length (results r) | None => 0 end.
Proof.
  unfold SearchBarV1.numItems.
  destruct autocompleteResponse as [[[|result rs]]|]; reflexivity.
Qed.

(** X12. In the first component the [numItems] handed to the dropdown
    is the number of rows of its menu, whether a response is there or not;
    the rows carry the indices 0, 1, ... in the order of the results and
    are the suggestion rows of these results. *)
Theorem first_menu_is_indexed autocompleteResponse :
  let menu := SearchBarV1.dropdownMenu autocompleteResponse in
  length menu = SearchBarV1.numItems autocompleteResponse /\
  map SearchBarV1.index menu = seq 0 (SearchBarV1.numItems autocompleteResponse) /\
  map SearchBarV1.item menu
  = map suggestionItem
        (match autocompleteResponse with Some r => results r | None => [] end).
Proof.
  cbn zeta. unfold SearchBarV1.dropdownMenu. rewrite numItems_length.
  destruct autocompleteResponse as [[rs]|]; [|now repeat split].
  cbn [results]. destruct rs as [|result rs]; [now repeat split|].
  change (0 <? length (result :: rs)) with true. cbn iota.
  rewrite <- (length_map SearchBarV1.index) at 1.
  rewrite index_mapWithIndex, item_mapWithIndex, length_seq. now repeat split.
Qed.

Section Both.
Variables EntityPreviews VerticalResults : Type.
Variable transformEntityPreviews : EntityPreviews -> list VerticalResults -> Element.
Implicit Types (p : Props EntityPreviews VerticalResults) (e : Env VerticalResults).
Implicit Types (w : World) (v : option string).

Lemma orEmpty_defaultEmpty v : Js.orEmpty v = Js.defaultEmpty v.
Proof. now destruct v as [[|c s]|]. Qed.

(** X13. With recent searches hidden and no [renderEntityPreviews], the
    second component handles submit, click, focus, change and the
    selection of a row that is no vertical link exactly as the first one
    does: the same calls in the same order, the same world afterwards. *)
Theorem second_component_extends_first p e w :
  Js.truthyFlag (hideRecentSearches p) = true ->
  renderEntityPreviews p = None ->
  exec (onSubmit p) w = exec SearchBarV1.onSubmit w /\
  exec (handleClick p) w = exec SearchBarV1.handleClick w /\
  (forall v, exec (onFocus p e v) w = exec (SearchBarV1.onFocus e v) w) /\
  (forall v, exec (onChange p e v) w = exec (SearchBarV1.onChange e v) w) /\
  (forall v index metadata,
     linkOf metadata = None ->
     exec (onSelect p e v index metadata) w = exec (SearchBarV1.onSelect e v) w).
Proof.
  intros Hhide Hnone. repeat split.
  - unfold onSubmit, SearchBarV1.onSubmit, SearchBarV1.executeQuery, executeQuery, exec, bind.
    now rewrite Hhide.
  - unfold handleClick, SearchBarV1.handleClick, SearchBarV1.executeQuery, executeQuery,
      exec, bind.
    now rewrite Hhide.
  - intros v. unfold onFocus, SearchBarV1.onFocus, updateEntityPreviews.
    rewrite Hnone, orEmpty_defaultEmpty. reflexivity.
  - intros v. unfold onChange, SearchBarV1.onChange, updateEntityPreviews.
    rewrite Hnone, orEmpty_defaultEmpty. reflexivity.
  - intros v index metadata Hlink.
    unfold onSelect, SearchBarV1.onSelect, SearchBarV1.executeQuery, executeQuery.
    rewrite Hlink. unfold exec, bind. rewrite Hhide. reflexivity.
Qed.

(** X14. With vertical links hidden or on a vertical search, no recent
    search to show and no [renderEntityPreviews], the menu of the second
    component has the rows of the menu of the first one. *)
Theorem second_menu_extends_first p e autocompleteResponse filtered :
  Js.truthyFlag (hideVerticalLinks p) || isVertical e = true ->
  Js.truthyNumber (Js.optLength filtered) = false ->
  renderEntityPreviews p = None ->
  items (dropdownMenu transformEntityPreviews p e autocompleteResponse filtered)
  = map SearchBarV1.item (SearchBarV1.dropdownMenu autocompleteResponse).
Proof.
  intros Hlinks Hrecent Hnone.
  assert (Hrows : items (renderRecentSearches e filtered) = [])
    by (rewrite SearchBarFacts.items_renderRecentSearches;
        destruct (isVertical e); [reflexivity|];
        now destruct filtered as [[|stored l]|]).
  assert (Hsuggestions :
            items (renderQuerySuggestions p e autocompleteResponse)
            = map suggestionItem
                  (match autocompleteResponse with Some r => results r | None => [] end)).
  { rewrite SearchBarFacts.items_renderQuerySuggestions.
    induction (match autocompleteResponse with Some r => results r | None => [] end)
      as [|result rs IH]; [reflexivity|].
    cbn [flat_map map]. rewrite IH, SearchBarFacts.items_renderVerticalLinks.
    apply orb_true_iff in Hlinks as [-> | ->]; cbn [negb andb];
      rewrite ?andb_false_r; reflexivity. }
  assert (Hpreviews : items (renderEntityPreviewRows transformEntityPreviews p e) = [])
    by (unfold renderEntityPreviewRows, entityPreviews; now rewrite Hnone).
  unfold dropdownMenu, SearchBarV1.dropdownMenu, hasItems.
  rewrite Hrecent, andb_false_r, orb_false_r, numItems_length.
  destruct autocompleteResponse as [[[|result rs]]|]; try reflexivity.
  change (Js.truthyNumber _) with true. change (0 <? _) with true. cbn iota.
  unfold menuChildren. rewrite SearchBarFacts.items_Children. cbn [flat_map].
  rewrite Hrows, Hsuggestions, Hpreviews, item_mapWithIndex.
  now rewrite app_nil_r.
Qed.

End Both.


(** With recent searches hidden, submitting is what it was in the first component. *)
Lemma second_component_extends_first_witness :
  exec (onSubmit Examples.hidingRecentSearches) Examples.afterPizza
  = exec SearchBarV1.onSubmit Examples.afterPizza.
Proof.
  exact (proj1 (second_component_extends_first unit unit Examples.hidingRecentSearches
                  Examples.universal Examples.afterPizza eq_refl eq_refl)).
Defined.

(** On a vertical search three results give the three rows of the first component. *)
Lemma second_menu_extends_first_witness :
  items (dropdownMenu Examples.noPreviews Examples.defaultProps Examples.vertical
           (Some Sessions.threeResults) None)
  = map SearchBarV1.item (SearchBarV1.dropdownMenu (Some Sessions.threeResults)).
Proof.
  exact (second_menu_extends_first unit unit Examples.noPreviews Examples.defaultProps
           Examples.vertical (Some Sessions.threeResults) None eq_refl eq_refl eq_refl).
Defined.

End SearchBarV1Facts.
